(** * Stock price consensus engine (main.py): embedding and properties

    The engine asks every price source for a quote, keeps the valid ones,
    drops those too far from their median, and reports the rounded mean of
    the rest with a confidence score.

    Python floats are IEEE-754 binary64 values; they are modelled by Rocq's
    primitive [float], whose operations are specified by [FloatAxioms] over
    [SpecFloat].  What the code takes from Python's library ([sorted],
    [statistics.median], [statistics.mean], [round], [min], [int / int]) is
    modelled next to it, by the values the library computes.  Exceptions
    are modelled by a small error monad.  The network and the clock are
    inputs: an adapter is a name with the reading its [fetch] returns for a
    symbol, the clock is the value [datetime.now(timezone.utc)] yields.
    Logging and the pause between two requests change no result and are
    left out. *)

From Stdlib Require Import ZArith String Ascii List Bool Lia Permutation.
From Stdlib Require Import DecimalString Floats.
Import ListNotations.

Set Implicit Arguments.

(** ** Exceptions *)

Inductive exn : Type :=
| ZeroDivisionError
| StatisticsError.

Inductive result (A : Type) : Type :=
| Ok (a : A)
| Raise (e : exn).

Arguments Ok {A} a.
Arguments Raise {A} e.

Definition bind {A B : Type} (m : result A) (k : A -> result B) : result B :=
  match m with
  | Ok a => k a
  | Raise e => Raise e
  end.

Notation "x <- m ;; k" := (bind m (fun x => k))
  (at level 61, m at next level, right associativity).

(** A list comprehension [[p for p in l if c(p)]] whose condition may raise:
    elements are tried from left to right and the first exception escapes. *)
Fixpoint filterM {A : Type} (c : A -> result bool) (l : list A) : result (list A) :=
  match l with
  | [] => Ok []
  | p :: l' =>
      b <- c p ;;
      r <- filterM c l' ;;
      Ok (if b then p :: r else r)
  end.

(** ** Python numbers *)

Module PyFloat.

Local Open Scope Z_scope.

(** The float nearest to [+-n * 2^e / d] (ties to even): Python's
    [int / int], and its conversion of a [Fraction] or of a decimal string
    to a float. *)
Definition of_ratio (s : bool) (n : positive) (e : Z) (d : positive) : float :=
  SF2Prim (SFdiv prec emax (S754_finite s n e) (S754_finite false d 0)).

(** [float(n)] for an integer. *)
Definition of_Z (n : Z) : float :=
  SF2Prim (binary_normalize prec emax n 0 false).

(** [a / b] on two ints. *)
Definition int_truediv (a b : nat) : result float :=
  match Z.of_nat a, Z.of_nat b with
  | _, Z0 => Raise ZeroDivisionError
  | Zpos n, Zpos d => Ok (of_ratio false n 0 d)
  | _, _ => Ok zero
  end.

(** [x / y] on two floats: a zero divisor raises. *)
Definition truediv (x y : float) : result float :=
  if (y =? 0)%float then Raise ZeroDivisionError else Ok (x / y)%float.

(** [min(a, b)]: the first argument unless the second is smaller. *)
Definition min (a b : float) : float :=
  if (b <? a)%float then b else a.

Definition round_half_even (n : Z) (d : positive) : Z :=
  let q := n / Zpos d in
  let r := n mod Zpos d in
  match 2 * r ?= Zpos d with
  | Lt => q
  | Gt => q + 1
  | Eq => if Z.even q then q else q + 1
  end.

(** [round(x, 2)]: the exact value of [x] is rounded to two decimals (ties
    to even) and the decimal is converted back to the nearest float;
    infinities and NaN round to themselves. *)
Definition round2 (x : float) : float :=
  match Prim2SF x with
  | S754_finite s m e =>
      let n := match e with
               | Zneg k => round_half_even (Zpos m * 100) (2 ^ k)%positive
               | _ => Zpos m * 100 * 2 ^ e
               end in
      match n with
      | Zpos p => of_ratio s p 0 100
      | _ => if s then neg_zero else zero
      end
  | _ => x
  end.

Definition is_finite (x : float) : bool :=
  match Prim2SF x with
  | S754_zero _ | S754_finite _ _ _ => true
  | _ => false
  end.

End PyFloat.

(** ** The [statistics] module *)

Module statistics.

(** [sorted]: a stable sort that only asks [<]; on prices, which are
    never NaN, every such sort returns the same list. *)
Fixpoint insert (x : float) (l : list float) : list float :=
  match l with
  | [] => [x]
  | y :: l' => if (x <? y)%float then x :: l else y :: insert x l'
  end.

Definition sorted (data : list float) : list float :=
  fold_left (fun acc x => insert x acc) data [].

Definition median (data : list float) : result float :=
  let data := sorted data in
  let n := length data in
  if Nat.eqb n 0 then Raise StatisticsError
  else if Nat.eqb (n mod 2) 1 then Ok (nth (n / 2) data nan)
  else
    let i := (n / 2)%nat in
    Ok ((nth (i - 1) data nan + nth i data nan) / 2)%float.

Local Open Scope Z_scope.

(** The exact sum of the finite values of [data], as [fst * 2 ^ snd]. *)
Definition exact_add (acc : Z * Z) (x : float) : Z * Z :=
  match Prim2SF x with
  | S754_finite s m e =>
      let '(n, k) := acc in
      let v := if s then Zneg m else Zpos m in
      if n =? 0 then (v, e)
      else
        let k' := Z.min k e in
        (n * 2 ^ (k - k') + v * 2 ^ (e - k'), k')
  | _ => acc
  end.

Definition exact_sum (data : list float) : Z * Z :=
  fold_left exact_add data (0, 0).

(** The float sum of the infinities and NaNs of [data], which replaces the
    exact sum as soon as there is one. *)
Definition special_sum (data : list float) : option float :=
  fold_left (fun acc x =>
               if PyFloat.is_finite x then acc
               else match acc with
                    | None => Some x
                    | Some t => Some (t + x)%float
                    end) data None.

Definition mean (data : list float) : result float :=
  match length data with
  | O => Raise StatisticsError
  | S n' =>
      let n := Pos.of_succ_nat n' in
      match special_sum data with
      | Some total => Ok (total / PyFloat.of_Z (Zpos n))%float
      | None =>
          match exact_sum data with
          | (Zpos t, e) => Ok (PyFloat.of_ratio false t e n)
          | (Zneg t, e) => Ok (PyFloat.of_ratio true t e n)
          | (Z0, _) => Ok zero
          end
      end
  end.

End statistics.

(** ** Strings and dicts *)

Definition upper_ascii (c : ascii) : ascii :=
  let n := nat_of_ascii c in
  if andb (Nat.leb 97 n) (Nat.leb n 122) then ascii_of_nat (n - 32) else c.

(** [s.upper()] on an ASCII symbol. *)
Fixpoint upper (s : string) : string :=
  match s with
  | EmptyString => EmptyString
  | String c s' => String (upper_ascii c) (upper s')
  end.

(** [str(n)] for a count. *)
Definition str_of_nat (n : nat) : string :=
  NilZero.string_of_uint (Nat.to_uint n).

(** A Python dict with string keys: entries in insertion order; assigning to
    a key that is present replaces its value where it stands. *)
Definition dict (V : Type) : Type := list (string * V).

Fixpoint dict_set {V : Type} (k : string) (v : V) (d : dict V) : dict V :=
  match d with
  | [] => [(k, v)]
  | (k', v') :: d' =>
      if String.eqb k' k then (k', v) :: d' else (k', v') :: dict_set k v d'
  end.

Fixpoint dict_get {V : Type} (k : string) (d : dict V) : option V :=
  match d with
  | [] => None
  | (k', v) :: d' => if String.eqb k' k then Some v else dict_get k d'
  end.

Definition dict_mem {V : Type} (k : string) (d : dict V) : bool :=
  match dict_get k d with
  | Some _ => true
  | None => false
  end.

Definition keys {V : Type} (d : dict V) : list string := map fst d.

Definition is_not_None {A : Type} (o : option A) : bool :=
  match o with
  | Some _ => true
  | None => false
  end.

(** ** CONFIG *)

Definition MIN_VALID_SOURCES : nat := 1.

Definition MAX_PRICE_DEVIATION : float := 0.5.

(** [f"{MAX_PRICE_DEVIATION}"]. *)
Definition MAX_PRICE_DEVIATION_str : string := "0.5".

(** [time.strptime("09:30:00", "%H:%M:%S").tm_hour] and the same at 16:00:00. *)
Definition MARKET_OPEN_TIME : Z := 9.
Definition MARKET_CLOSE_TIME : Z := 16.

(** ** UTILITIES *)

(** A [datetime]: the date by its proleptic Gregorian ordinal
    ([date.toordinal()], day 1 a Monday), and the time of day. *)
Record datetime : Type := {
  toordinal : Z;
  hour : Z;
  minute : Z;
  second : Z;
  microsecond : Z
}.

Definition weekday (d : datetime) : Z := ((toordinal d + 6) mod 7)%Z.

(** [d + timedelta(hours=h)]: the sum is carried into days, seconds of the
    day and microseconds, as [datetime.__add__] does.  (Python refuses a
    result outside the years 1 to 9999, which no clock reading reaches.) *)
Definition add_hours (d : datetime) (h : Z) : datetime :=
  let s := (hour d * 3600 + minute d * 60 + second d + h * 3600)%Z in
  let secs := (s mod 86400)%Z in
  {| toordinal := (toordinal d + s / 86400)%Z;
     hour := (secs / 3600)%Z;
     minute := ((secs mod 3600) / 60)%Z;
     second := ((secs mod 3600) mod 60)%Z;
     microsecond := microsecond d |}.

(** [market_is_open()], with the clock reading [datetime.now(timezone.utc)]
    as its argument. *)
Definition market_is_open (now : datetime) : bool :=
  let ET_OFFSET := (-5)%Z in
  let now_et := add_hours now ET_OFFSET in
  let current_hour := hour now_et in
  let current_minute := minute now_et in
  let is_open :=
    ((MARKET_OPEN_TIME <? current_hour)%Z
     || ((current_hour =? MARKET_OPEN_TIME)%Z && (30 <=? current_minute)%Z))
    && (current_hour <? MARKET_CLOSE_TIME)%Z in
  let is_weekend := (5 <=? weekday now_et)%Z in
  is_open && negb is_weekend.

(** ** SOURCE SCRAPERS *)

(** An adapter: its name and what [fetch] returns for a symbol ([None] for
    every failure, which [fetch] absorbs). *)
Record PriceSource : Type := {
  name : string;
  fetch : string -> option float
}.

Definition YahooSource (response : string -> option float) : PriceSource :=
  {| name := "YahooFinance"; fetch := response |}.

Definition StooqSource (response : string -> option float) : PriceSource :=
  {| name := "Stooq"; fetch := response |}.

(** ** VALIDATION *)

Definition is_valid_price (price : option float) : bool :=
  match price with
  | None => false
  | Some p => (0 <? p)%float
  end.

(** ** CONSENSUS ENGINE *)

(** The condition of the filter,
    [abs(p - median_price) / median_price * 100 <= MAX_PRICE_DEVIATION];
    the division raises on a zero median. *)
Definition within_deviation (median_price p : float) : result bool :=
  q <- PyFloat.truediv (abs (p - median_price)) median_price ;;
  Ok (q * 100 <=? MAX_PRICE_DEVIATION)%float.

Definition consensus_price (prices : list float) : result (option float) :=
  if Nat.ltb (length prices) MIN_VALID_SOURCES then Ok None
  else
    median_price <- statistics.median prices ;;
    filtered <- filterM (within_deviation median_price) prices ;;
    if Nat.ltb (length filtered) MIN_VALID_SOURCES then Ok None
    else
      m <- statistics.mean filtered ;;
      Ok (Some (PyFloat.round2 m)).

(** ** CONFIDENCE SCORING *)

Definition confidence_score (valid_count total_sources : nat)
    (final_price_exists : bool) : result float :=
  if negb final_price_exists then Ok zero
  else
    base_confidence <- PyFloat.int_truediv valid_count total_sources ;;
    (* 0.1 is the double 0x1.999999999999ap-4 *)
    Ok (PyFloat.round2 (PyFloat.min 1 (base_confidence + 0x1.999999999999ap-4))).

(** ** CORE ENGINE *)

Record StockPriceEngine : Type := {
  sources : list PriceSource;
  total_sources : nat
}.

(** [StockPriceEngine.__init__], given what the two providers answer. *)
Definition StockPriceEngine_init (yahoo stooq : string -> option float)
    : StockPriceEngine :=
  let sources := [YahooSource yahoo; StooqSource stooq] in
  {| sources := sources; total_sources := length sources |}.

(** A value of [source_map]: a price, or the string ["FAILED"]. *)
Inductive source_value : Type :=
| Price (p : float)
| FAILED.

Definition is_failed (v : source_value) : bool :=
  match v with
  | FAILED => true
  | Price _ => false
  end.

(** The values of the result dict. *)
Inductive value : Type :=
| VStr (s : string)
| VFloat (x : float)
| VList (l : list string)
| VMap (m : dict source_value).

(** What a call reads from outside: the clock when it starts, and the
    timestamp [utc_now()] formats when the result is built. *)
Record world : Type := {
  now : datetime;
  scraped_at : string
}.

Definition _error (w : world) (code message : string)
    (source_map : dict source_value) : dict value :=
  [ ("error", VStr code);
    ("message", VStr message);
    ("scraped_at", VStr (scraped_at w));
    ("source_prices", VMap (match source_map with [] => [] | _ => source_map end)) ]%string.

(** The state of the gathering loop. *)
Record gathered : Type := {
  raw_prices : list float;
  source_map : dict source_value;
  valid_count : nat
}.

Definition gather_step (symbol : string) (st : gathered) (source : PriceSource)
    : gathered :=
  let price := fetch source symbol in
  match price with
  | Some p =>
      if is_valid_price price then
        {| raw_prices := raw_prices st ++ [p];
           source_map := dict_set (name source) (Price p) (source_map st);
           valid_count := S (valid_count st) |}
      else
        {| raw_prices := raw_prices st;
           source_map := dict_set (name source) FAILED (source_map st);
           valid_count := valid_count st |}
  | None =>
      {| raw_prices := raw_prices st;
         source_map := dict_set (name source) FAILED (source_map st);
         valid_count := valid_count st |}
  end.

Definition gather (self : StockPriceEngine) (symbol : string) : gathered :=
  fold_left (gather_step symbol) (sources self)
    {| raw_prices := []; source_map := []; valid_count := 0 |}.

Definition fetch_price (self : StockPriceEngine) (w : world) (symbol : string)
    : result (dict value) :=
  let market_state := if market_is_open (now w) then "OPEN"%string else "CLOSED"%string in
  let g := gather self symbol in
  if Nat.ltb (valid_count g) MIN_VALID_SOURCES then
    Ok (_error w "INSUFFICIENT_DATA"
          ("Requires " ++ str_of_nat MIN_VALID_SOURCES
             ++ " reliable sources, but only found " ++ str_of_nat (valid_count g))
          (source_map g))
  else
    final_price <- consensus_price (raw_prices g) ;;
    match final_price with
    | None =>
        Ok (_error w "LOW_CONFIDENCE"
              ("Prices deviated by more than " ++ MAX_PRICE_DEVIATION_str
                 ++ "%. Check raw prices.")
              (source_map g))
    | Some price =>
        confidence <- confidence_score (valid_count g) (total_sources self)
                        (is_not_None final_price) ;;
        Ok [ ("symbol", VStr (upper symbol));
             ("price", VFloat price);
             ("confidence", VFloat confidence);
             ("sources_used",
               VList (map fst (filter (fun kv => negb (is_failed (snd kv))) (source_map g))));
             ("source_prices", VMap (source_map g));
             ("market_state", VStr market_state);
             ("scraped_at", VStr (scraped_at w));
             ("price_type", VStr "LIVE") ]%string
    end.

(** ** The [fetch] methods of the two adapters *)

(** A value as [json.loads] builds it. *)
#[warnings="-register-all"]
Inductive json : Type :=
| JNull
| JBool (b : bool)
| JInt (n : Z)
| JFloat (x : float)
| JStr (s : string)
| JList (l : list json)
| JDict (d : list (string * json)).

(** What [requests.get] ends in: an exception of [requests], or a response
    with its status code and the value [r.json()] returns ([None] when the
    body is not JSON and [r.json()] raises). *)
Inductive http_result : Type :=
| RequestException
| Response (status_code : nat) (body : option json).

(** The network: what a GET of a URL ends in. *)
Definition network : Type := string -> http_result.

(** [r.raise_for_status()] raises on a status from 400 to 599. *)
Definition raises_for_status (status_code : nat) : bool :=
  (400 <=? status_code) && (status_code <? 600).

(** [bool(v)]. *)
Definition truthy (v : json) : bool :=
  match v with
  | JNull => false
  | JBool b => b
  | JInt n => negb (n =? 0)%Z
  | JFloat x => negb (x =? 0)%float
  | JStr s => negb (String.eqb s "")
  | JList l => match l with [] => false | _ => true end
  | JDict d => match d with [] => false | _ => true end
  end.

Definition is_None (v : json) : bool :=
  match v with
  | JNull => true
  | _ => false
  end.

(** In the three functions below [None] stands for an exception; which one
    makes no difference, since [fetch] answers every exception by
    [return None]. *)

(** [v[k]] for a string [k]: only a dict that has the key answers. *)
Definition subscript (v : json) (k : string) : option json :=
  match v with
  | JDict d => dict_get k d
  | _ => None
  end.

(** [v[0]]: the first element of a list, the first character of a string;
    a dict has no key [0] and the other values cannot be indexed. *)
Definition subscript_0 (v : json) : option json :=
  match v with
  | JList (x :: _) => Some x
  | JStr (String c _) => Some (JStr (String c EmptyString))
  | _ => None
  end.

(** [v.get(k)]: the value under [k] or [None], on a dict; the other values
    have no method [get]. *)
Definition get (v : json) (k : string) : option json :=
  match v with
  | JDict d => Some (match dict_get k d with Some x => x | None => JNull end)
  | _ => None
  end.

Section Scrapers.

(** [float(s)] on a string, Python's parser of float literals. *)
Variable float_of_str : string -> option float.

(** [float(v)]: an int too large for a float raises, as do [None], lists and
    dicts. *)
Definition float_of (v : json) : option float :=
  match v with
  | JFloat x => Some x
  | JInt n =>
      let x := PyFloat.of_Z n in
      if PyFloat.is_finite x then Some x else None
  | JBool b => Some (if b then 1 else 0)%float
  | JStr s => float_of_str s
  | _ => None
  end.

Variable net : network.

Definition YahooSource_fetch (symbol : string) : option float :=
  let url := ("https://query1.finance.yahoo.com/v7/finance/quote?symbols=" ++ symbol)%string in
  match net url with
  | RequestException => None
  | Response status_code body =>
      if raises_for_status status_code then None
      else
        match body with
        | None => None
        | Some j =>
            match subscript j "quoteResponse" with
            | None => None
            | Some q =>
                match subscript q "result" with
                | None => None
                | Some result =>
                    if negb (truthy result) then None
                    else
                      match subscript_0 result with
                      | None => None
                      | Some data =>
                          match get data "regularMarketPrice" with
                          | None => None
                          | Some price =>
                              if is_None price then
                                match get data "postMarketPrice",
                                      get data "preMarketPrice" with
                                | Some post, Some pre =>
                                    float_of (if truthy post then post else pre)
                                | _, _ => None
                                end
                              else float_of price
                          end
                      end
                end
            end
        end
  end.

Definition StooqSource_fetch (symbol : string) : option float :=
  let stooq_symbol := (upper symbol ++ ".US")%string in
  let url := ("https://stooq.com/q/l/?s=" ++ stooq_symbol ++ "&f=sd2t2ohlcv&h&e=json")%string in
  match net url with
  | RequestException => None
  | Response status_code body =>
      if raises_for_status status_code then None
      else
        match body with
        | None => None
        | Some json_data =>
            match get json_data "symbols" with
            | None => None
            | Some symbols =>
                if negb (truthy symbols) then None
                else
                  match subscript_0 symbols with
                  | None => None
                  | Some first =>
                      match get first "close" with
                      | None => None
                      | Some close_price =>
                          if is_None close_price
                             || match close_price with
                                | JStr s => String.eqb s "N/A"
                                | _ => false
                                end
                          then None
                          else float_of close_price
                      end
                  end
            end
        end
  end.

(** [StockPriceEngine()], on a given network. *)
Definition StockPriceEngine_live : StockPriceEngine :=
  StockPriceEngine_init YahooSource_fetch StooqSource_fetch.

End Scrapers.

(** ** Notions used by the statements *)

(** The percentage deviation the filter computes, as a float. *)
Definition pct_deviation (p median_price : float) : float :=
  (abs (p - median_price) / median_price * 100)%float.

(** The filter of [consensus_price] as a plain [filter]. *)
Definition retained (m : float) (prices : list float) : list float :=
  filter (fun p => (pct_deviation p m <=? MAX_PRICE_DEVIATION)%float) prices.

(** A price the validity filter lets through. *)
Definition valid (p : float) : Prop := is_valid_price (Some p) = true.

(** The readings of the adapters in registration order, and the valid
    prices among them. *)
Definition readings (self : StockPriceEngine) (symbol : string) : list (option float) :=
  map (fun s => fetch s symbol) (sources self).

Fixpoint valid_prices_of (l : list (option float)) : list float :=
  match l with
  | [] => []
  | Some p :: l' => if (0 <? p)%float then p :: valid_prices_of l' else valid_prices_of l'
  | None :: l' => valid_prices_of l'
  end.

Definition valid_prices (self : StockPriceEngine) (symbol : string) : list float :=
  valid_prices_of (readings self symbol).

(** What the loop records for an adapter: its valid price, or [FAILED]. *)
Definition entry (symbol : string) (s : PriceSource) : source_value :=
  match fetch s symbol with
  | Some p => if (0 <? p)%float then Price p else FAILED
  | None => FAILED
  end.

(** One pass of the loop on the map alone. *)
Definition record_entry (symbol : string) (m : dict source_value) (s : PriceSource)
    : dict source_value :=
  dict_set (name s) (entry symbol s) m.

(** The two failure results and the success result, as [fetch_price]
    builds them. *)
Definition insufficient_data (w : world) (found : nat) (m : dict source_value)
    : dict value :=
  [ ("error", VStr "INSUFFICIENT_DATA");
    ("message", VStr ("Requires " ++ str_of_nat MIN_VALID_SOURCES
                        ++ " reliable sources, but only found " ++ str_of_nat found));
    ("scraped_at", VStr (scraped_at w));
    ("source_prices", VMap m) ]%string.

Definition low_confidence (w : world) (m : dict source_value) : dict value :=
  [ ("error", VStr "LOW_CONFIDENCE");
    ("message", VStr "Prices deviated by more than 0.5%. Check raw prices.");
    ("scraped_at", VStr (scraped_at w));
    ("source_prices", VMap m) ]%string.

Definition success (w : world) (symbol : string) (price confidence : float)
    (m : dict source_value) : dict value :=
  [ ("symbol", VStr (upper symbol));
    ("price", VFloat price);
    ("confidence", VFloat confidence);
    ("sources_used", VList (map fst (filter (fun kv => negb (is_failed (snd kv))) m)));
    ("source_prices", VMap m);
    ("market_state", VStr (if market_is_open (now w) then "OPEN" else "CLOSED"));
    ("scraped_at", VStr (scraped_at w));
    ("price_type", VStr "LIVE") ]%string.

(** What a caller reads in a result: [["error" in result]],
    [[result.get("confidence", 0)]] and the per-source map. *)
Definition is_failure (r : dict value) : bool := dict_mem "error" r.

Definition confidence_or_zero (r : dict value) : float :=
  match dict_get "confidence" r with
  | Some (VFloat c) => c
  | _ => 0%float
  end.

Definition source_prices (r : dict value) : dict source_value :=
  match dict_get "source_prices" r with
  | Some (VMap m) => m
  | _ => []
  end.

(** The engine's [total_sources] is the number of its adapters, as
    [__init__] sets it. *)
Definition wf_engine (self : StockPriceEngine) : Prop :=
  total_sources self = length (sources self).

(** The clock reading moved to exchange time, in seconds from the start of
    ordinal day 0. *)
Definition et_seconds (d : datetime) : Z :=
  (toordinal d * 86400 + hour d * 3600 + minute d * 60 + second d - 5 * 3600)%Z.

(** Magnitude of a mantissa and exponent: the position of the leading bit. *)
Definition mag (m : positive) (e : Z) : Z := (Zpos (digits2_pos m) + e)%Z.

(** A result of rounding that is [+-inf] or finite, nonzero and of
    magnitude at least [k]. *)
Inductive pos_result (s : bool) (k : Z) : spec_float -> Prop :=
| pos_inf : pos_result s k (S754_infinity s)
| pos_fin m e : (k <= mag m e)%Z -> pos_result s k (S754_finite s m e).

(** A result of rounding that carries the sign [s]: a zero, a finite value
    or an infinity. *)
Inductive signed_result (s : bool) : spec_float -> Prop :=
| signed_zero : signed_result s (S754_zero s)
| signed_inf : signed_result s (S754_infinity s)
| signed_fin m e : signed_result s (S754_finite s m e).

(** A positive float: [+inf], or a finite positive value of the format. *)
Inductive pos_float : spec_float -> Prop :=
| pos_float_inf : pos_float (S754_infinity false)
| pos_float_fin m e : (-1074 <= e)%Z -> pos_float (S754_finite false m e).

(** * Properties *)

(** ** Binary64 rounding keeps positive values positive *)

Section Rounding.

Local Open Scope Z_scope.

Lemma digits2_pos_bounds (m : positive) :
  2 ^ (Zpos (digits2_pos m) - 1) <= Zpos m < 2 ^ Zpos (digits2_pos m).
Proof.
  induction m as [m IH | m IH |]; simpl digits2_pos.
  - rewrite Pos2Z.inj_succ.
    replace (Z.succ (Zpos (digits2_pos m)) - 1) with (Z.succ (Zpos (digits2_pos m) - 1)) by lia.
    rewrite !Z.pow_succ_r by lia. lia.
  - rewrite Pos2Z.inj_succ.
    replace (Z.succ (Zpos (digits2_pos m)) - 1) with (Z.succ (Zpos (digits2_pos m) - 1)) by lia.
    rewrite !Z.pow_succ_r by lia. lia.
  - simpl. lia.
Qed.

Lemma digits2_pos_unique (m : positive) (k : Z) :
  2 ^ (k - 1) <= Zpos m < 2 ^ k -> Zpos (digits2_pos m) = k.
Proof.
  intros [Hl Hu]. pose proof (digits2_pos_bounds m) as [Hl' Hu'].
  assert (0 < k).
  { destruct (Z.ltb_spec 0 k); auto. rewrite Z.pow_neg_r in Hl by lia.
    assert (2 ^ k <= 2 ^ 0) by (apply Z.pow_le_mono_r; lia). simpl in *. lia. }
  destruct (Z.lt_trichotomy (Zpos (digits2_pos m)) k) as [Hlt | [Heq | Hgt]]; auto.
  - assert (2 ^ Zpos (digits2_pos m) <= 2 ^ (k - 1)) by (apply Z.pow_le_mono_r; lia). lia.
  - assert (2 ^ k <= 2 ^ (Zpos (digits2_pos m) - 1)) by (apply Z.pow_le_mono_r; lia). lia.
Qed.

Lemma shr_1_m (mrs : shr_record) :
  0 <= shr_m mrs -> shr_m (shr_1 mrs) = shr_m mrs / 2.
Proof.
  destruct mrs as [m r s]. simpl. intros Hm.
  destruct m as [| [p | p |] | p]; cbn [shr_m]; try lia; try reflexivity.
  - apply Z.div_unique with (r := 1); lia.
  - apply Z.div_unique with (r := 0); lia.
Qed.

Lemma iter_shr_1_m (p : positive) : forall mrs,
  0 <= shr_m mrs -> shr_m (iter_pos shr_1 p mrs) = shr_m mrs / 2 ^ Zpos p.
Proof.
  induction p as [p IH | p IH |]; intros mrs Hm; simpl iter_pos.
  - assert (H1 : 0 <= shr_m (shr_1 mrs)) by (rewrite shr_1_m by auto; apply Z.div_pos; lia).
    assert (H2 : 0 <= shr_m (iter_pos shr_1 p (shr_1 mrs))).
    { rewrite IH by auto. apply Z.div_pos; lia. }
    rewrite IH by auto. rewrite IH by auto. rewrite shr_1_m by auto.
    rewrite !Z.div_div by lia. f_equal.
    rewrite <- Z.pow_add_r, <- Z.pow_succ_r by lia. f_equal. lia.
  - assert (H2 : 0 <= shr_m (iter_pos shr_1 p mrs)).
    { rewrite IH by auto. apply Z.div_pos; lia. }
    rewrite IH by auto. rewrite IH by auto.
    rewrite !Z.div_div by lia. f_equal.
    rewrite <- Z.pow_add_r by lia. f_equal. lia.
  - rewrite shr_1_m by auto. reflexivity.
Qed.

Lemma digits2_pos_mono (m m' : positive) :
  (m <= m')%positive -> Zpos (digits2_pos m) <= Zpos (digits2_pos m').
Proof.
  intros Hle. pose proof (digits2_pos_bounds m) as [Hl _].
  pose proof (digits2_pos_bounds m') as [_ Hu].
  destruct (Z.leb_spec (Zpos (digits2_pos m)) (Zpos (digits2_pos m'))) as [|Hlt]; auto.
  assert (2 ^ Zpos (digits2_pos m') <= 2 ^ (Zpos (digits2_pos m) - 1))
    by (apply Z.pow_le_mono_r; lia).
  lia.
Qed.

Lemma div_pow2_digits (m : positive) (n : Z) :
  0 <= n < Zpos (digits2_pos m) ->
  exists m', Zpos m / 2 ^ n = Zpos m' /\ Zpos (digits2_pos m') = Zpos (digits2_pos m) - n.
Proof.
  intros Hn. pose proof (digits2_pos_bounds m) as [Hl Hu].
  set (d := Zpos (digits2_pos m)) in *.
  assert (Hp : 0 < 2 ^ n) by (apply Z.pow_pos_nonneg; lia).
  assert (Hlo : 2 ^ (d - n - 1) <= Zpos m / 2 ^ n).
  { apply Z.div_le_lower_bound; auto.
    rewrite <- Z.pow_add_r by lia. replace (n + (d - n - 1)) with (d - 1) by lia. auto. }
  assert (Hhi : Zpos m / 2 ^ n < 2 ^ (d - n)).
  { apply Z.div_lt_upper_bound; auto.
    rewrite <- Z.pow_add_r by lia. replace (n + (d - n)) with d by lia. auto. }
  assert (Hq : 0 < Zpos m / 2 ^ n).
  { assert (0 < 2 ^ (d - n - 1)) by (apply Z.pow_pos_nonneg; lia). lia. }
  destruct (Zpos m / 2 ^ n) as [| q | q] eqn:E; try lia.
  exists q. split; auto. apply digits2_pos_unique.
  replace (d - n - 1) with (d - n - 1) in Hlo by lia. split; auto.
Qed.

Lemma shr_record_of_loc_m (m : Z) (l : location) : shr_m (shr_record_of_loc m l) = m.
Proof. destruct l as [| []]; reflexivity. Qed.

Lemma fexp_eq (x : Z) : fexp prec emax x = Z.max (x - 53) (-1074).
Proof. reflexivity. Qed.

(** Truncation to the format keeps a mantissa that is large enough
    positive, keeps its magnitude, and leaves an exponent in range. *)
Lemma shr_fexp_pos (m : positive) (e : Z) (l : location) :
  -1073 <= mag m e ->
  exists mrs m',
    shr_fexp prec emax (Zpos m) e l = (mrs, mag m e - Zpos (digits2_pos m')) /\
    shr_m mrs = Zpos m' /\ -1074 <= mag m e - Zpos (digits2_pos m').
Proof.
  unfold mag. intros Hmag. unfold shr_fexp, shr. cbn [Zdigits2].
  rewrite fexp_eq.
  destruct (Z.max (Zpos (digits2_pos m) + e - 53) (-1074) - e) as [| n | n] eqn:En.
  - exists (shr_record_of_loc (Zpos m) l), m. rewrite shr_record_of_loc_m.
    repeat split; try f_equal; lia.
  - destruct (@div_pow2_digits m (Zpos n)) as (m' & Hq & Hd); [lia|].
    exists (iter_pos shr_1 n (shr_record_of_loc (Zpos m) l)), m'.
    rewrite iter_shr_1_m by (rewrite shr_record_of_loc_m; lia).
    rewrite shr_record_of_loc_m.
    repeat split; auto; try f_equal; lia.
  - exists (shr_record_of_loc (Zpos m) l), m. rewrite shr_record_of_loc_m.
    repeat split; try f_equal; lia.
Qed.

Lemma round_nearest_even_pos (m : positive) (l : location) :
  exists m', round_nearest_even (Zpos m) l = Zpos m' /\ (m <= m')%positive.
Proof.
  destruct l as [| []]; cbn [round_nearest_even].
  - exists m; split; auto; lia.
  - destruct (Z.even (Zpos m)); [exists m | exists (m + 1)%positive]; split; auto; lia.
  - exists m; split; auto; lia.
  - exists (m + 1)%positive; split; auto; lia.
Qed.

Lemma binary_round_aux_pos (s : bool) (m : positive) (e : Z) (l : location) (k : Z) :
  -1073 <= k -> k <= mag m e ->
  pos_result s k (binary_round_aux prec emax s (Zpos m) e l).
Proof.
  intros Hk Hmag. unfold binary_round_aux.
  destruct (shr_fexp_pos m e l) as (mrs1 & m1 & E1 & Hm1 & He1); [lia|].
  rewrite E1. rewrite Hm1.
  destruct (round_nearest_even_pos m1 (loc_of_shr_record mrs1)) as (m2 & E2 & Hle).
  rewrite E2.
  pose proof (digits2_pos_mono Hle) as Hd.
  set (e1 := mag m e - Zpos (digits2_pos m1)) in *.
  destruct (shr_fexp_pos m2 e1 loc_Exact) as (mrs3 & m3 & E3 & Hm3 & He3);
    [unfold mag; lia|].
  rewrite E3. rewrite Hm3.
  destruct (_ <=? _); constructor.
  unfold mag at 1. unfold mag at 1. lia.
Qed.

Lemma digits2_pos_iter_xO (d m : positive) :
  Zpos (digits2_pos (Pos.iter xO m d)) = Zpos (digits2_pos m) + Zpos d.
Proof.
  induction d as [| d IH] using Pos.peano_ind.
  - simpl. lia.
  - rewrite Pos.iter_succ. simpl digits2_pos. rewrite Pos2Z.inj_succ, IH. lia.
Qed.

Lemma shl_align_mag (m : positive) (e e' : Z) :
  mag (fst (shl_align m e e')) (snd (shl_align m e e')) = mag m e.
Proof.
  unfold shl_align, mag. destruct (e' - e) as [| d | d] eqn:E; cbn [fst snd]; auto.
  rewrite digits2_pos_iter_xO. lia.
Qed.

Lemma binary_round_pos (s : bool) (m : positive) (e : Z) (k : Z) :
  -1073 <= k -> k <= mag m e ->
  pos_result s k (binary_round prec emax s m e).
Proof.
  intros Hk Hmag. unfold binary_round.
  pose proof (shl_align_mag m e (fexp prec emax (Zpos (digits2_pos m) + e))) as Hs.
  destruct (shl_align _ _ _) as [mz ez]. cbn [fst snd] in Hs.
  apply binary_round_aux_pos; lia.
Qed.

Lemma bounded_emin (m : positive) (e : Z) : bounded prec emax m e = true -> -1074 <= e.
Proof.
  unfold bounded, canonical_mantissa. rewrite andb_true_iff, Z.eqb_eq, fexp_eq. lia.
Qed.

Lemma SFltb_zero_pos (x : float) :
  (0 <? x)%float = true -> pos_float (Prim2SF x).
Proof.
  rewrite ltb_spec. pose proof (Prim2SF_valid x) as Hv.
  change (Prim2SF 0) with (S754_zero false).
  destruct (Prim2SF x) as [s | [] | | [] m e]; cbn; try discriminate; intros _.
  - constructor.
  - constructor. apply (bounded_emin m). exact Hv.
Qed.

Lemma SFadd_pos (x y : spec_float) :
  pos_float x -> pos_float y -> pos_result false (-1072) (SFadd prec emax x y).
Proof.
  intros [| mx ex Hx] [| my ey Hy]; cbn [SFadd]; try constructor.
  cbn [cond_Zopp]. rewrite <- Pos2Z.inj_add. cbn [binary_normalize].
  apply binary_round_pos; [lia|].
  unfold mag.
  assert (H2 : (2 <= fst (shl_align mx ex (Z.min ex ey)) + fst (shl_align my ey (Z.min ex ey)))%positive) by lia.
  apply digits2_pos_mono in H2. cbn [digits2_pos Pos.succ] in H2. lia.
Qed.

Lemma SFdiv_pow2_pos (m : positive) (e : Z) (d : positive) :
  Zpos d = 2 ^ 52 -> -1072 <= mag m e ->
  pos_result false (-1073)
    (SFdiv prec emax (S754_finite false m e) (S754_finite false d (-51))).
Proof.
  intros Hd Hmag. cbn [SFdiv xorb]. unfold SFdiv_core_binary. cbn [Zdigits2].
  assert (Hd53 : Zpos (digits2_pos d) = 53)
    by (apply digits2_pos_unique; rewrite Hd; simpl; lia).
  rewrite Hd53, fexp_eq. unfold mag in Hmag.
  set (d1 := Zpos (digits2_pos m)) in *.
  set (e' := Z.min (Z.max (d1 + e - (53 + -51) - 53) (-1074)) (e - -51)).
  assert (He' : e' <= e + 51 /\ e' <= d1 + e - 2) by (unfold e'; lia).
  set (s := e - -51 - e').
  assert (Hs : 0 <= s /\ 53 <= d1 + s) by (unfold s; lia).
  pose proof (digits2_pos_bounds m) as [Hl Hu]. fold d1 in Hl, Hu.
  assert (Hm' : match s with Zpos _ => Z.shiftl (Zpos m) s | Z0 => Zpos m | Zneg _ => 0 end
                = Zpos m * 2 ^ s).
  { destruct s as [| p | p] eqn:Es; try lia.
    - rewrite Z.shiftl_mul_pow2 by lia. reflexivity. }
  rewrite Hm'.
  assert (Hps : 0 < 2 ^ s) by (apply Z.pow_pos_nonneg; lia).
  destruct (Zpos m * 2 ^ s) as [| p | p] eqn:Ep; try lia.
  assert (Hdp : Zpos (digits2_pos p) = d1 + s).
  { apply digits2_pos_unique. rewrite <- Ep.
    replace (d1 + s - 1) with (d1 - 1 + s) by lia.
    rewrite !Z.pow_add_r by lia. split.
    - apply Z.mul_le_mono_nonneg_r; lia.
    - apply Z.mul_lt_mono_pos_r; lia. }
  destruct (@div_pow2_digits p 52) as (q & Hq & Hdq); [lia|].
  rewrite <- Hd in Hq. unfold Z.div in Hq.
  destruct (Z.div_eucl (Zpos p) (Zpos d)) as [q' r]. cbn [fst] in Hq. subst q'.
  apply binary_round_aux_pos; [lia|]. unfold mag. unfold s in *. lia.
Qed.

Lemma pos_result_ltb (k : Z) (x : spec_float) :
  pos_result false k x -> SFltb (S754_zero false) x = true.
Proof. intros [| m e _]; reflexivity. Qed.

(** The mean of two positive floats is positive: the sum cannot fall below
    twice the smallest subnormal, so halving it cannot reach zero. *)
Lemma half_sum_pos (a b : float) :
  (0 <? a)%float = true -> (0 <? b)%float = true ->
  (0 <? (a + b) / 2)%float = true.
Proof.
  intros Ha Hb. apply SFltb_zero_pos in Ha, Hb.
  rewrite ltb_spec, div_spec, add_spec.
  change (Prim2SF 0) with (S754_zero false).
  change (Prim2SF 2) with (S754_finite false 4503599627370496 (-51)).
  unfold SF64div, SF64add.
  destruct (SFadd_pos Ha Hb) as [| m e Hm].
  - reflexivity.
  - apply (@pos_result_ltb (-1073)). apply SFdiv_pow2_pos; auto.
Qed.

Lemma Zdigits2_nonneg (m : Z) : 0 <= Zdigits2 m.
Proof. destruct m; cbn; lia. Qed.

(** [Zdigits2 m] is the least [d] with [m < 2 ^ d]. *)
Lemma Zdigits2_lower (m k : Z) : 0 <= k -> 2 ^ k <= m -> k + 1 <= Zdigits2 m.
Proof.
  intros Hk Hm. assert (0 < 2 ^ k) by (apply Z.pow_pos_nonneg; lia).
  destruct m as [| p | p]; try lia. cbn [Zdigits2].
  pose proof (digits2_pos_bounds p) as [_ Hu].
  destruct (Z.ltb_spec k (Zpos (digits2_pos p))); [lia|].
  assert (2 ^ Zpos (digits2_pos p) <= 2 ^ k) by (apply Z.pow_le_mono_r; lia). lia.
Qed.

Lemma Zdigits2_upper (m : Z) : 0 <= m -> m < 2 ^ Zdigits2 m.
Proof.
  destruct m as [| p | p]; intros; try lia.
  - cbn. lia.
  - apply digits2_pos_bounds.
Qed.

Lemma Zdigits2_mono (m m' : Z) : 0 <= m <= m' -> Zdigits2 m <= Zdigits2 m'.
Proof.
  intros [H0 Hle]. destruct m as [| p | p]; try lia.
  - apply Zdigits2_nonneg.
  - destruct m' as [| p' | p']; try lia. cbn [Zdigits2]. apply digits2_pos_mono. lia.
Qed.

Lemma fexp_mono (x y : Z) : x <= y -> fexp prec emax x <= fexp prec emax y.
Proof. rewrite !fexp_eq. lia. Qed.

(** Digits of a truncated mantissa. *)
Lemma Zdigits2_div_pow2 (m n : Z) :
  0 <= m -> 0 <= n -> Zdigits2 (m / 2 ^ n) = Z.max (Zdigits2 m - n) 0.
Proof.
  intros Hm Hn. destruct m as [| p | p]; try lia.
  - rewrite Z.div_0_l by (apply Z.pow_nonzero; lia). cbn [Zdigits2]. lia.
  - cbn [Zdigits2]. destruct (Z.ltb_spec n (Zpos (digits2_pos p))) as [Hlt | Hge].
    + destruct (@div_pow2_digits p n) as (q & -> & Hq); [lia|]. cbn [Zdigits2]. lia.
    + rewrite Z.div_small; [cbn [Zdigits2]; lia|].
      pose proof (digits2_pos_bounds p) as [_ Hu].
      assert (2 ^ Zpos (digits2_pos p) <= 2 ^ n) by (apply Z.pow_le_mono_r; lia). lia.
Qed.

(** Truncation to the format: the exponent becomes the one the format
    gives to the truncated mantissa. *)
Lemma shr_fexp_canonical (m e : Z) (l : location) :
  0 <= m -> e <= fexp prec emax (Zdigits2 m + e) ->
  exists mrs e',
    shr_fexp prec emax m e l = (mrs, e') /\
    0 <= shr_m mrs /\
    e' = fexp prec emax (Zdigits2 (shr_m mrs) + e').
Proof.
  intros Hm He. unfold shr_fexp, shr.
  set (d := Zdigits2 m) in *. rewrite fexp_eq in *.
  destruct (Z.max (d + e - 53) (-1074) - e) as [| n | n] eqn:En; try lia.
  - eexists _, _. split; [reflexivity|]. rewrite shr_record_of_loc_m. fold d.
    split; [exact Hm|]. rewrite fexp_eq. lia.
  - eexists _, _. split; [reflexivity|].
    rewrite iter_shr_1_m by (rewrite shr_record_of_loc_m; exact Hm).
    rewrite shr_record_of_loc_m. split; [apply Z.div_pos; lia|].
    rewrite Zdigits2_div_pow2 by lia. fold d. rewrite fexp_eq. lia.
Qed.

Lemma round_nearest_even_ge (m : Z) (l : location) :
  0 <= m -> m <= round_nearest_even m l.
Proof.
  intros Hm. destruct l as [| []]; cbn [round_nearest_even]; try lia.
  destruct (Z.even m); lia.
Qed.

Lemma binary_round_aux_valid (s : bool) (m e : Z) (l : location) :
  0 <= m -> e <= fexp prec emax (Zdigits2 m + e) ->
  valid_binary (binary_round_aux prec emax s m e l) = true /\
  signed_result s (binary_round_aux prec emax s m e l).
Proof.
  intros Hm He. unfold binary_round_aux.
  destruct (shr_fexp_canonical l Hm He) as (mrs1 & e1 & -> & Hm1 & He1).
  pose proof (round_nearest_even_ge (loc_of_shr_record mrs1) Hm1) as Hr.
  set (m2 := round_nearest_even (shr_m mrs1) (loc_of_shr_record mrs1)) in *.
  assert (He2 : e1 <= fexp prec emax (Zdigits2 m2 + e1)).
  { rewrite He1 at 1. apply fexp_mono.
    pose proof (@Zdigits2_mono (shr_m mrs1) m2). lia. }
  destruct (@shr_fexp_canonical m2 e1 loc_Exact) as (mrs3 & e3 & -> & Hm3 & He3);
    [lia | exact He2 |].
  destruct (shr_m mrs3) as [| m3 | m3] eqn:E3; try lia.
  - split; [reflexivity | constructor].
  - destruct (Z.leb_spec e3 (emax - prec)) as [Hle | Hgt].
    + split; [|constructor]. cbn [valid_binary]. unfold bounded, canonical_mantissa.
      apply andb_true_iff. split; [apply Z.eqb_eq; cbn [Zdigits2] in He3; lia|].
      apply Z.leb_le. exact Hle.
    + split; [reflexivity | constructor].
Qed.

(** The quotient mantissa and exponent that division hands to rounding. *)
Lemma SFdiv_core_binary_spec (m1 m2 : positive) (e1 e2 : Z) :
  exists q e' l,
    SFdiv_core_binary prec emax (Zpos m1) e1 (Zpos m2) e2 = (q, e', l) /\
    0 <= q /\
    e' <= fexp prec emax (Zdigits2 q + e') /\
    (-1073 <= mag m1 e1 - mag m2 e2 ->
     exists qp, q = Zpos qp /\ mag m1 e1 - mag m2 e2 <= mag qp e').
Proof.
  unfold SFdiv_core_binary, mag. cbn [Zdigits2]. rewrite fexp_eq.
  set (d1 := Zpos (digits2_pos m1)). set (d2 := Zpos (digits2_pos m2)).
  set (e' := Z.min (Z.max (d1 + e1 - (d2 + e2) - 53) (-1074)) (e1 - e2)).
  set (s := e1 - e2 - e').
  assert (Hs : 0 <= s) by (unfold s, e'; lia).
  assert (Hm' : match s with Zpos _ => Z.shiftl (Zpos m1) s | Z0 => Zpos m1 | Zneg _ => 0 end
                = Zpos m1 * 2 ^ s).
  { destruct s as [| p | p] eqn:Es; try lia.
    rewrite Z.shiftl_mul_pow2 by lia. reflexivity. }
  rewrite Hm'. clear Hm'.
  pose proof (digits2_pos_bounds m1) as [Hl1 Hu1]. fold d1 in Hl1, Hu1.
  pose proof (digits2_pos_bounds m2) as [Hl2 Hu2]. fold d2 in Hl2, Hu2.
  assert (Hps : 0 < 2 ^ s) by (apply Z.pow_pos_nonneg; lia).
  assert (Hq0 : 0 <= Zpos m1 * 2 ^ s / Zpos m2) by (apply Z.div_pos; lia).
  (* a lower bound on the quotient when it has room *)
  assert (Hlow : forall k, 0 <= k -> k <= d1 + s - 1 - d2 ->
                           2 ^ k <= Zpos m1 * 2 ^ s / Zpos m2).
  { intros k Hk Hk'. apply Z.div_le_lower_bound; [lia|].
    assert (H1 : 2 ^ (d1 - 1) * 2 ^ s <= Zpos m1 * 2 ^ s)
      by (apply Z.mul_le_mono_nonneg_r; lia).
    assert (H2 : Zpos m2 * 2 ^ k <= 2 ^ d2 * 2 ^ k)
      by (apply Z.mul_le_mono_nonneg_r; [apply Z.pow_nonneg|]; lia).
    rewrite <- Z.pow_add_r in H1, H2 by lia.
    assert (H3 : 2 ^ (d2 + k) <= 2 ^ (d1 - 1 + s)) by (apply Z.pow_le_mono_r; lia).
    lia. }
  unfold Z.div in Hq0, Hlow.
  destruct (Z.div_eucl (Zpos m1 * 2 ^ s) (Zpos m2)) as [q r]. cbn [fst] in Hq0, Hlow.
  exists q, e', (new_location (Zpos m2) r). split; [reflexivity|].
  split; [exact Hq0|]. split.
  - rewrite fexp_eq.
    destruct (Z.leb_spec e' (-1074)) as [Hle | Hgt]; [lia|].
    assert (Hk : 0 <= d1 + s - 1 - d2) by (unfold s, e' in *; lia).
    pose proof (Zdigits2_lower Hk (Hlow _ Hk (Z.le_refl _))) as Hd.
    unfold s, e' in *. lia.
  - intros HD.
    assert (Hk : 0 <= d1 + s - 1 - d2) by (unfold s, e' in *; lia).
    pose proof (Hlow _ Hk (Z.le_refl _)) as Hq.
    assert (0 < 2 ^ (d1 + s - 1 - d2)) by (apply Z.pow_pos_nonneg; lia).
    destruct q as [| qp | qp]; try lia.
    exists qp. split; [reflexivity|].
    pose proof (Zdigits2_lower Hk Hq) as Hd. cbn [Zdigits2] in Hd.
    unfold s in *. lia.
Qed.

Lemma SFdiv_finite_valid (s1 s2 : bool) (m1 m2 : positive) (e1 e2 : Z) :
  valid_binary (SFdiv prec emax (S754_finite s1 m1 e1) (S754_finite s2 m2 e2)) = true /\
  signed_result (xorb s1 s2)
    (SFdiv prec emax (S754_finite s1 m1 e1) (S754_finite s2 m2 e2)).
Proof.
  cbn [SFdiv].
  destruct (SFdiv_core_binary_spec m1 m2 e1 e2) as (q & e' & l & -> & Hq & He & _).
  apply binary_round_aux_valid; assumption.
Qed.

Lemma SFdiv_finite_pos (s1 s2 : bool) (m1 m2 : positive) (e1 e2 : Z) :
  -1073 <= mag m1 e1 - mag m2 e2 ->
  pos_result (xorb s1 s2) (-1073)
    (SFdiv prec emax (S754_finite s1 m1 e1) (S754_finite s2 m2 e2)).
Proof.
  intros HD. cbn [SFdiv].
  destruct (SFdiv_core_binary_spec m1 m2 e1 e2) as (q & e' & l & -> & _ & _ & Hpos).
  destruct (Hpos HD) as (qp & -> & Hmag).
  apply binary_round_aux_pos; lia.
Qed.

End Rounding.

(** ** The deviation filter on positive prices *)

Lemma valid_pos (p : float) : valid p <-> (0 <? p)%float = true.
Proof. reflexivity. Qed.

Lemma pos_not_zero (m : float) : (0 <? m)%float = true -> (m =? 0)%float = false.
Proof.
  intros Hm. apply SFltb_zero_pos in Hm. rewrite eqb_spec.
  change (Prim2SF 0) with (S754_zero false).
  destruct Hm; reflexivity.
Qed.

Lemma within_deviation_pos (m p : float) :
  (0 <? m)%float = true ->
  within_deviation m p = Ok (pct_deviation p m <=? MAX_PRICE_DEVIATION)%float.
Proof.
  intros Hm. unfold within_deviation, PyFloat.truediv.
  rewrite (pos_not_zero Hm). reflexivity.
Qed.

Lemma pct_deviation_spec (p m : float) :
  Prim2SF (pct_deviation p m)
  = SF64mul (SF64div (SFabs (SF64sub (Prim2SF p) (Prim2SF m))) (Prim2SF m))
      (Prim2SF 100).
Proof.
  unfold pct_deviation. rewrite mul_spec, div_spec, abs_spec, sub_spec. reflexivity.
Qed.

(** A finite positive price is at deviation zero from itself. *)
Lemma pct_deviation_self_finite (m : float) :
  (0 <? m)%float = true -> PyFloat.is_finite m = true ->
  Prim2SF (pct_deviation m m) = S754_zero false.
Proof.
  intros Hm Hf. apply SFltb_zero_pos in Hm. rewrite pct_deviation_spec.
  unfold PyFloat.is_finite in Hf.
  destruct Hm as [| mm e He]; [discriminate|].
  unfold SF64sub. cbn [SFsub cond_Zopp]. rewrite Z.sub_diag.
  reflexivity.
Qed.

(** An infinite price is at no deviation from itself: the computation
    yields NaN. *)
Lemma pct_deviation_self_infinite (m : float) :
  Prim2SF m = S754_infinity false -> Prim2SF (pct_deviation m m) = S754_nan.
Proof.
  intros Hm. rewrite pct_deviation_spec, Hm. reflexivity.
Qed.

Lemma pct_deviation_self_within (m : float) :
  (0 <? m)%float = true -> PyFloat.is_finite m = true ->
  (pct_deviation m m <=? MAX_PRICE_DEVIATION)%float = true.
Proof.
  intros Hm Hf. rewrite leb_spec, pct_deviation_self_finite by assumption.
  reflexivity.
Qed.

Lemma pct_deviation_self_not_beyond (m : float) :
  (0 <? m)%float = true ->
  (MAX_PRICE_DEVIATION <? pct_deviation m m)%float = false.
Proof.
  intros Hm. rewrite ltb_spec.
  destruct (PyFloat.is_finite m) eqn:Hf.
  - rewrite pct_deviation_self_finite by assumption. reflexivity.
  - apply SFltb_zero_pos in Hm. unfold PyFloat.is_finite in Hf.
    rewrite pct_deviation_self_infinite; [reflexivity|].
    destruct Hm; [reflexivity | discriminate].
Qed.

(** Beyond the threshold and within it exclude each other. *)
Lemma beyond_not_within (d : float) :
  (MAX_PRICE_DEVIATION <? d)%float = true ->
  (d <=? MAX_PRICE_DEVIATION)%float = false.
Proof.
  rewrite ltb_spec, leb_spec. unfold SFltb, SFleb.
  change (Prim2SF MAX_PRICE_DEVIATION) with (S754_finite false 4503599627370496 (-53)).
  destruct (Prim2SF d) as [s | [] | | [] m e]; cbn [SFcompare]; try discriminate; try reflexivity.
  rewrite (Z.compare_antisym e (-53)).
  destruct (e ?= -53)%Z eqn:E; cbn [CompOpp]; try discriminate; try reflexivity.
  change Eq with (CompOpp Eq) at 1.
  rewrite <- (Pos.compare_cont_antisym m 4503599627370496 Eq).
  destruct (Pos.compare_cont Eq m 4503599627370496); cbn [CompOpp]; try discriminate; reflexivity.
Qed.

(** ** [sorted], [median] and [mean] *)

Section Statistics.

Import statistics.

Lemma insert_perm (x : float) (l : list float) : Permutation (insert x l) (x :: l).
Proof.
  induction l as [| y l IH]; cbn [insert]; [reflexivity|].
  destruct (x <? y)%float; [reflexivity|].
  rewrite IH. apply perm_swap.
Qed.

Lemma fold_insert_perm (l acc : list float) :
  Permutation (fold_left (fun acc x => insert x acc) l acc) (l ++ acc).
Proof.
  revert acc. induction l as [| x l IH]; intros acc; cbn [fold_left app]; [reflexivity|].
  rewrite IH, insert_perm. symmetry. apply Permutation_middle.
Qed.

Lemma sorted_perm (l : list float) : Permutation (sorted l) l.
Proof. unfold sorted. rewrite fold_insert_perm, app_nil_r. reflexivity. Qed.

Lemma sorted_length (l : list float) : length (sorted l) = length l.
Proof. apply Permutation_length, sorted_perm. Qed.

Lemma sorted_nth_In (l : list float) (i : nat) :
  i < length l -> In (nth i (sorted l) nan) l.
Proof.
  intros Hi. apply (Permutation_in _ (sorted_perm l)).
  apply nth_In. rewrite sorted_length. exact Hi.
Qed.

Lemma odd_mod2 (n : nat) : Nat.odd n = Nat.eqb (n mod 2) 1.
Proof.
  pose proof (Nat.div_mod_eq n 2) as Hd.
  pose proof (Nat.mod_upper_bound n 2) as Hu.
  destruct (Nat.eqb_spec (n mod 2) 1) as [E | E].
  - apply Nat.odd_spec. exists (n / 2). lia.
  - rewrite <- Nat.negb_even. apply negb_false_iff, Nat.even_spec.
    exists (n / 2). lia.
Qed.

(** The median of a non-empty list is one of its elements when the length
    is odd, and the halved sum of two of them when it is even; it is never
    an exception. *)
Lemma median_cases (l : list float) :
  l <> [] ->
  exists m, median l = Ok m /\
    ((Nat.odd (length l) = true /\ In m l) \/
     (Nat.odd (length l) = false /\
      exists a b, In a l /\ In b l /\ m = ((a + b) / 2)%float)).
Proof.
  intros Hl. unfold median. rewrite sorted_length, <- odd_mod2.
  assert (Hn : 0 < length l) by (destruct l; [congruence | cbn; lia]).
  destruct (Nat.eqb_spec (length l) 0) as [E | _]; [lia|].
  assert (Hdiv : length l / 2 < length l) by (apply Nat.div_lt; lia).
  destruct (Nat.odd (length l)).
  - eexists; split; [reflexivity|]. left. split; [reflexivity|].
    apply sorted_nth_In; assumption.
  - eexists; split; [reflexivity|]. right. split; [reflexivity|].
    exists (nth (length l / 2 - 1) (sorted l) nan), (nth (length l / 2) (sorted l) nan).
    repeat split; auto; apply sorted_nth_In; lia.
Qed.

Lemma median_pos (l : list float) :
  l <> [] -> Forall valid l ->
  exists m, median l = Ok m /\ (0 <? m)%float = true.
Proof.
  intros Hl Hv. rewrite Forall_forall in Hv.
  destruct (median_cases Hl) as (m & Hm & [[_ Hin] | [_ (a & b & Ha & Hb & E)]]);
    exists m; (split; [assumption|]).
  - apply Hv, Hin.
  - subst m. apply half_sum_pos; apply valid_pos, Hv; assumption.
Qed.

Lemma mean_ok (l : list float) : l <> [] -> exists mu, mean l = Ok mu.
Proof.
  intros Hl. unfold mean. destruct l as [| x l]; [congruence|]. cbn [length].
  destruct (special_sum (x :: l)); [eexists; reflexivity|].
  destruct (exact_sum (x :: l)) as [[| t | t] e]; eexists; reflexivity.
Qed.

End Statistics.

(** ** [consensus_price] on positive prices *)

Section Consensus.

Lemma filterM_within (m : float) (l : list float) :
  (0 <? m)%float = true -> filterM (within_deviation m) l = Ok (retained m l).
Proof.
  intros Hm. induction l as [| p l IH]; [reflexivity|].
  cbn [filterM retained filter]. rewrite (within_deviation_pos p Hm). cbn [bind].
  rewrite IH. cbn [bind]. reflexivity.
Qed.

Lemma consensus_price_pos (prices : list float) (m : float) :
  statistics.median prices = Ok m -> (0 <? m)%float = true ->
  consensus_price prices =
    if Nat.ltb (length prices) MIN_VALID_SOURCES then Ok None
    else if Nat.ltb (length (retained m prices)) MIN_VALID_SOURCES then Ok None
    else mu <- statistics.mean (retained m prices) ;; Ok (Some (PyFloat.round2 mu)).
Proof.
  intros Hmed Hm. unfold consensus_price. rewrite Hmed. cbn [bind].
  rewrite (filterM_within _ Hm). reflexivity.
Qed.

Lemma retained_all (m : float) (l : list float) :
  Forall (fun p => (pct_deviation p m <=? MAX_PRICE_DEVIATION)%float = true) l ->
  retained m l = l.
Proof.
  induction 1 as [| p l Hp _ IH]; [reflexivity|].
  cbn [retained filter]. rewrite Hp. f_equal. exact IH.
Qed.

Lemma retained_app (m : float) (l1 l2 : list float) :
  retained m (l1 ++ l2) = retained m l1 ++ retained m l2.
Proof. apply filter_app. Qed.

Lemma median_singleton (x : float) : statistics.median [x] = Ok x.
Proof. reflexivity. Qed.

Lemma length_pos_not_nil {A : Type} (l : list A) : l <> [] <-> 1 <= length l.
Proof. destruct l; cbn; split; intros; try congruence; lia. Qed.

(** On valid prices [consensus_price] raises nothing. *)
Lemma consensus_price_total (prices : list float) :
  prices <> [] -> Forall valid prices ->
  exists r, consensus_price prices = Ok r.
Proof.
  intros Hne Hv. destruct (median_pos Hne Hv) as (m & Hmed & Hm).
  rewrite (consensus_price_pos _ Hmed Hm).
  destruct (Nat.ltb (length prices) MIN_VALID_SOURCES); [eexists; reflexivity|].
  destruct (Nat.ltb_spec (length (retained m prices)) MIN_VALID_SOURCES) as [Hl | Hl];
    [eexists; reflexivity|].
  assert (Hr : retained m prices <> []).
  { apply length_pos_not_nil. unfold MIN_VALID_SOURCES in Hl. lia. }
  destruct (mean_ok Hr) as (mu & ->). eexists; reflexivity.
Qed.

(** A result [None] past the length check means that the filter kept fewer
    than [MIN_VALID_SOURCES] prices. *)
Lemma consensus_price_none (prices : list float) :
  Forall valid prices -> MIN_VALID_SOURCES <= length prices ->
  consensus_price prices = Ok None ->
  exists m, statistics.median prices = Ok m /\
            length (retained m prices) < MIN_VALID_SOURCES.
Proof.
  intros Hv Hlen Hnone.
  assert (Hne : prices <> []) by (apply length_pos_not_nil; exact Hlen).
  destruct (median_pos Hne Hv) as (m & Hmed & Hm). exists m. split; [exact Hmed|].
  rewrite (consensus_price_pos _ Hmed Hm) in Hnone.
  destruct (Nat.ltb_spec (length prices) MIN_VALID_SOURCES) as [Hl | _]; [lia|].
  destruct (Nat.ltb_spec (length (retained m prices)) MIN_VALID_SOURCES) as [Hl | Hl];
    [exact Hl|].
  destruct (statistics.mean (retained m prices)); discriminate.
Qed.

(** With an odd number of valid finite prices the median is one of them and
    passes the filter, so there is a consensus. *)
Lemma consensus_price_odd (prices : list float) :
  Forall valid prices -> Forall (fun p => PyFloat.is_finite p = true) prices ->
  Nat.odd (length prices) = true ->
  exists price, consensus_price prices = Ok (Some price).
Proof.
  intros Hv Hf Hodd.
  assert (Hne : prices <> []) by (intros ->; discriminate).
  destruct (median_cases Hne) as (m & Hmed & [[_ Hin] | [Heven _]]); [|congruence].
  rewrite Forall_forall in Hv, Hf.
  assert (Hm : (0 <? m)%float = true) by (apply valid_pos, Hv, Hin).
  assert (Hkept : In m (retained m prices)).
  { apply filter_In. split; [exact Hin|].
    apply pct_deviation_self_within; [exact Hm | apply Hf, Hin]. }
  assert (Hr : retained m prices <> []) by (intros E; rewrite E in Hkept; destruct Hkept).
  rewrite (consensus_price_pos _ Hmed Hm).
  apply length_pos_not_nil in Hne. apply length_pos_not_nil in Hr as Hr'.
  destruct (Nat.ltb_spec (length prices) MIN_VALID_SOURCES) as [Hl | _];
    [unfold MIN_VALID_SOURCES in Hl; lia|].
  destruct (Nat.ltb_spec (length (retained m prices)) MIN_VALID_SOURCES) as [Hl | _];
    [unfold MIN_VALID_SOURCES in Hl; lia|].
  destruct (mean_ok Hr) as (mu & ->). eexists; reflexivity.
Qed.

End Consensus.

(** ** Claims on [consensus_price] *)

(** C1. When every price is valid, there are at least [MIN_VALID_SOURCES] of
    them and each is within [MAX_PRICE_DEVIATION] percent of the median of
    the list (the deviation as the filter computes it), [consensus_price]
    returns [round(mean(prices), 2)]. *)
Theorem C1_consensus_all_within (prices : list float) (m : float) :
  Forall valid prices ->
  MIN_VALID_SOURCES <= length prices ->
  statistics.median prices = Ok m ->
  Forall (fun p => (pct_deviation p m <=? MAX_PRICE_DEVIATION)%float = true) prices ->
  exists mu,
    statistics.mean prices = Ok mu /\
    consensus_price prices = Ok (Some (PyFloat.round2 mu)).
Proof.
  intros Hv Hlen Hmed Hdev.
  assert (Hne : prices <> []) by (apply length_pos_not_nil; exact Hlen).
  destruct (median_pos Hne Hv) as (m' & Hmed' & Hm).
  assert (m' = m) by congruence. subst m'.
  destruct (mean_ok Hne) as (mu & Hmu). exists mu. split; [exact Hmu|].
  rewrite (consensus_price_pos _ Hmed Hm), (retained_all Hdev), Hmu.
  destruct (Nat.ltb_spec (length prices) MIN_VALID_SOURCES); [lia | reflexivity].
Qed.

(** Two providers at 150.00 and 150.40: the median is 150.20, both are
    within 0.5 percent, and the consensus is their rounded mean. *)
Lemma C1_consensus_all_within_witness :
  exists mu,
    statistics.mean [150; 0x1.2cccccccccccdp+7]%float = Ok mu /\
    consensus_price [150; 0x1.2cccccccccccdp+7]%float = Ok (Some (PyFloat.round2 mu)).
Proof.
  apply (@C1_consensus_all_within [150; 0x1.2cccccccccccdp+7]%float 0x1.2c66666666666p+7%float).
  - repeat constructor.
  - unfold MIN_VALID_SOURCES. cbn. lia.
  - vm_compute. reflexivity.
  - repeat constructor.
Defined.

(** C2. When exactly one price lies beyond the threshold from the median and
    all the others are within it, [consensus_price] drops that price and
    returns the rounded mean of the others. *)
Theorem C2_consensus_excludes_outlier (l1 l2 : list float) (o m : float) :
  Forall valid (l1 ++ o :: l2) ->
  statistics.median (l1 ++ o :: l2) = Ok m ->
  (MAX_PRICE_DEVIATION <? pct_deviation o m)%float = true ->
  Forall (fun p => (pct_deviation p m <=? MAX_PRICE_DEVIATION)%float = true) (l1 ++ l2) ->
  retained m (l1 ++ o :: l2) = l1 ++ l2 /\
  exists mu,
    statistics.mean (l1 ++ l2) = Ok mu /\
    consensus_price (l1 ++ o :: l2) = Ok (Some (PyFloat.round2 mu)).
Proof.
  intros Hv Hmed Hout Hin.
  assert (Hne : l1 ++ o :: l2 <> []) by (destruct l1; discriminate).
  destruct (median_pos Hne Hv) as (m' & Hmed' & Hm).
  assert (m' = m) by congruence. subst m'.
  assert (Hret : retained m (l1 ++ o :: l2) = l1 ++ l2).
  { apply Forall_app in Hin. destruct Hin as [H1 H2].
    rewrite retained_app. cbn [retained filter].
    rewrite (beyond_not_within Hout).
    fold (retained m l1). fold (retained m l2).
    rewrite (retained_all H1), (retained_all H2). reflexivity. }
  assert (Hrest : l1 ++ l2 <> []).
  { intros E. apply app_eq_nil in E. destruct E; subst l1 l2.
    cbn [app] in *. rewrite median_singleton in Hmed.
    injection Hmed as <-.
    rewrite (pct_deviation_self_not_beyond Hm) in Hout. discriminate. }
  split; [exact Hret|].
  destruct (mean_ok Hrest) as (mu & Hmu). exists mu. split; [exact Hmu|].
  rewrite (consensus_price_pos _ Hmed Hm), Hret, Hmu.
  apply length_pos_not_nil in Hrest.
  destruct (Nat.ltb_spec (length (l1 ++ o :: l2)) MIN_VALID_SOURCES) as [Hl | _].
  { rewrite length_app in Hl. cbn in Hl. unfold MIN_VALID_SOURCES in Hl. lia. }
  destruct (Nat.ltb_spec (length (l1 ++ l2)) MIN_VALID_SOURCES) as [Hl | _].
  { unfold MIN_VALID_SOURCES in Hl. lia. }
  reflexivity.
Qed.

(** Readings 100.00, 100.20 and 5000.00: the last one is dropped. *)
Lemma C2_consensus_excludes_outlier_witness :
  retained 0x1.90ccccccccccdp+6 ([100; 0x1.90ccccccccccdp+6] ++ 5000 :: [])%float
    = ([100; 0x1.90ccccccccccdp+6] ++ [])%float /\
  exists mu,
    statistics.mean ([100; 0x1.90ccccccccccdp+6] ++ [])%float = Ok mu /\
    consensus_price ([100; 0x1.90ccccccccccdp+6] ++ 5000 :: [])%float
      = Ok (Some (PyFloat.round2 mu)).
Proof.
  apply (@C2_consensus_excludes_outlier [100; 0x1.90ccccccccccdp+6]%float []
           5000%float 0x1.90ccccccccccdp+6%float).
  - repeat constructor.
  - vm_compute. reflexivity.
  - vm_compute. reflexivity.
  - repeat constructor.
Defined.

(** ** The confidence is positive *)

Section Confidence.

Local Open Scope Z_scope.

Lemma of_ratio_spec (s : bool) (n : positive) (e : Z) (d : positive) :
  Prim2SF (PyFloat.of_ratio s n e d)
  = SFdiv prec emax (S754_finite s n e) (S754_finite false d 0).
Proof.
  unfold PyFloat.of_ratio. apply Prim2SF_SF2Prim.
  apply (SFdiv_finite_valid s false n d e 0).
Qed.

Lemma int_truediv_signed (v t : nat) :
  (0 < t)%nat ->
  exists base, PyFloat.int_truediv v t = Ok base /\ signed_result false (Prim2SF base).
Proof.
  intros Ht. unfold PyFloat.int_truediv.
  destruct (Z.of_nat t) as [| d | d] eqn:Et; try lia.
  destruct (Z.of_nat v) as [| n | n] eqn:Ev; try lia.
  - eexists; split; [reflexivity|]. change (Prim2SF zero) with (S754_zero false). constructor.
  - eexists; split; [reflexivity|]. rewrite of_ratio_spec.
    apply (SFdiv_finite_valid false false n d 0 0).
Qed.

Lemma shl_align_snd (m : positive) (e e' : Z) : e' <= e -> snd (shl_align m e e') = e'.
Proof.
  intros Hle. unfold shl_align. destruct (e' - e) as [| p | p] eqn:E; cbn [snd]; lia.
Qed.

(** Adding 0.1 to a non-negative float gives at least 2^-4. *)
Lemma add_tenth_pos (x : float) :
  signed_result false (Prim2SF x) ->
  pos_result false (-3) (Prim2SF (x + 0x1.999999999999ap-4)).
Proof.
  intros Hx. rewrite add_spec.
  change (Prim2SF 0x1.999999999999ap-4) with (S754_finite false 7205759403792794 (-56)).
  unfold SF64add. destruct Hx as [| | m e]; cbn [SFadd].
  - constructor. vm_compute. discriminate.
  - constructor.
  - cbn [cond_Zopp]. rewrite <- Pos2Z.inj_add. cbn [binary_normalize].
    apply binary_round_pos; [lia|].
    set (ez := Z.min e (-56)).
    pose proof (shl_align_mag 7205759403792794 (-56) ez) as Hmag.
    rewrite shl_align_snd in Hmag by (unfold ez; lia).
    change (mag 7205759403792794 (-56)) with (-3) in Hmag.
    unfold mag in *.
    assert (Hle : (fst (shl_align 7205759403792794 (-56) ez)
                   <= fst (shl_align m e ez) + fst (shl_align 7205759403792794 (-56) ez))%positive)
      by lia.
    apply digits2_pos_mono in Hle. lia.
Qed.

Lemma min_one_pos (y : float) :
  pos_result false (-3) (Prim2SF y) -> pos_result false (-3) (Prim2SF (PyFloat.min 1 y)).
Proof.
  intros Hy. unfold PyFloat.min. destruct (y <? 1)%float; [exact Hy|].
  change (Prim2SF 1) with (S754_finite false 4503599627370496 (-52)).
  constructor. vm_compute. discriminate.
Qed.

Lemma round_half_even_ge (n : Z) (d : positive) :
  n / Zpos d <= PyFloat.round_half_even n d.
Proof.
  unfold PyFloat.round_half_even.
  destruct (2 * (n mod Zpos d) ?= Zpos d); try lia.
  destruct (Z.even (n / Zpos d)); lia.
Qed.

Lemma round2_pos (z : float) :
  pos_result false (-3) (Prim2SF z) -> (0 <? PyFloat.round2 z)%float = true.
Proof.
  intros Hz. unfold PyFloat.round2.
  destruct (Prim2SF z) as [s | s | | s m e] eqn:Ez; inversion Hz; subst.
  - rewrite ltb_spec, Ez. reflexivity.
  - match goal with H : _ <= mag m e |- _ => rename H into Hmag end.
    unfold mag in Hmag. pose proof (digits2_pos_bounds m) as [Hl _].
    set (dm := Zpos (digits2_pos m)) in *.
    assert (Hn : 0 < match e with
                     | Zneg k => PyFloat.round_half_even (Zpos m * 100) (2 ^ k)%positive
                     | _ => Zpos m * 100 * 2 ^ e
                     end).
    { destruct e as [| k | k].
      - lia.
      - assert (0 < 2 ^ Zpos k) by (apply Z.pow_pos_nonneg; lia). nia.
      - pose proof (round_half_even_ge (Zpos m * 100) (2 ^ k)%positive) as Hge.
        assert (1 <= Zpos m * 100 / Zpos (2 ^ k)); [|lia].
        apply Z.div_le_lower_bound; [lia|]. rewrite Pos2Z.inj_pow.
        assert (H1 : 2 ^ Zpos k <= 2 ^ (dm - 1 + 4)) by (apply Z.pow_le_mono_r; lia).
        rewrite Z.pow_add_r in H1 by lia. change (2 ^ 4) with 16 in H1. lia. }
    destruct (match e with
              | Zneg k => PyFloat.round_half_even (Zpos m * 100) (2 ^ k)%positive
              | _ => Zpos m * 100 * 2 ^ e
              end) as [| p | p]; try lia.
    rewrite ltb_spec, of_ratio_spec. change (Prim2SF 0) with (S754_zero false).
    apply (@pos_result_ltb (-1073)).
    apply (SFdiv_finite_pos false false). unfold mag.
    change (Zpos (digits2_pos 100)) with 7.
    pose proof (digits2_pos_bounds p) as [_ Hu].
    assert (0 < Zpos (digits2_pos p)) by lia. lia.
Qed.

(** The confidence of a success is strictly positive, whatever the counts. *)
Lemma confidence_score_pos (v t : nat) :
  (0 < t)%nat ->
  exists c, confidence_score v t true = Ok c /\ (0 <? c)%float = true.
Proof.
  intros Ht. unfold confidence_score. cbn [negb].
  destruct (int_truediv_signed v Ht) as (base & -> & Hb). cbn [bind].
  eexists. split; [reflexivity|].
  apply round2_pos, min_one_pos, add_tenth_pos, Hb.
Qed.

End Confidence.

(** ** The market clock *)

Section Clock.

Local Open Scope Z_scope.

Lemma add_hours_et (d : datetime) :
  let et := add_hours d (-5) in
  toordinal et = et_seconds d / 86400 /\
  hour et = (et_seconds d mod 86400) / 3600 /\
  minute et = ((et_seconds d mod 86400) mod 3600) / 60.
Proof.
  unfold add_hours, et_seconds. cbn [toordinal hour minute].
  set (s := hour d * 3600 + minute d * 60 + second d + -5 * 3600).
  replace (toordinal d * 86400 + hour d * 3600 + minute d * 60 + second d - 5 * 3600)
    with (s + toordinal d * 86400) by (unfold s; ring).
  rewrite Z.mod_add, Z.div_add by lia.
  replace (s mod 86400 mod 3600) with (s mod 3600).
  - repeat split; lia.
  - pose proof (Z.mod_pos_bound s 86400) as H1.
    pose proof (Z.mod_pos_bound s 3600) as H2.
    pose proof (Z.mod_pos_bound (s mod 86400) 3600) as H3.
    pose proof (Z.div_mod s 86400) as E1.
    pose proof (Z.div_mod s 3600) as E2.
    pose proof (Z.div_mod (s mod 86400) 3600) as E3.
    lia.
Qed.

(** C8. [market_is_open] holds exactly when the clock reading, moved by
    the fixed offset of five hours, is at or after 09:30 and before 16:00
    on a day from Monday to Friday. *)
Theorem C8_market_is_open_window (t : datetime) :
  market_is_open t = true <->
  (9 * 3600 + 30 * 60 <= et_seconds t mod 86400 < 16 * 3600) /\
  (et_seconds t / 86400 + 6) mod 7 < 5.
Proof.
  unfold market_is_open, weekday, MARKET_OPEN_TIME, MARKET_CLOSE_TIME.
  destruct (add_hours_et t) as (Ho & Hh & Hm). cbv zeta in Ho, Hh, Hm.
  rewrite Ho, Hh, Hm.
  set (secs := et_seconds t mod 86400).
  assert (Hs : 0 <= secs < 86400) by (apply Z.mod_pos_bound; lia).
  pose proof (Z.div_mod secs 3600) as E1.
  pose proof (Z.mod_pos_bound secs 3600) as B1.
  pose proof (Z.div_mod (secs mod 3600) 60) as E2.
  pose proof (Z.mod_pos_bound (secs mod 3600) 60) as B2.
  rewrite !andb_true_iff, orb_true_iff, andb_true_iff, negb_true_iff.
  rewrite !Z.ltb_lt, Z.eqb_eq, Z.leb_le, Z.leb_gt.
  lia.
Qed.

End Clock.

(** ** The gathering loop and the shape of the result *)

Section Gather.

Variable symbol : string.

Lemma dict_get_set {V : Type} (k k' : string) (v : V) (d : dict V) :
  dict_get k (dict_set k' v d) = if String.eqb k' k then Some v else dict_get k d.
Proof.
  induction d as [| [k0 v0] d IH]; cbn [dict_set dict_get].
  - reflexivity.
  - destruct (String.eqb_spec k0 k') as [-> | Hne]; cbn [dict_get].
    + destruct (String.eqb k' k); reflexivity.
    + destruct (String.eqb_spec k0 k) as [-> | Hne']; [|exact IH].
      destruct (String.eqb_spec k' k) as [-> | _]; [congruence | reflexivity].
Qed.

Lemma keys_set_fresh {V : Type} (k : string) (v : V) (d : dict V) :
  ~ In k (keys d) -> dict_set k v d = d ++ [(k, v)].
Proof.
  induction d as [| [k0 v0] d IH]; cbn [dict_set keys map fst In app]; intros Hk.
  - reflexivity.
  - destruct (String.eqb_spec k0 k) as [-> | _]; [tauto|].
    rewrite IH by tauto. reflexivity.
Qed.

Lemma gather_step_fields (st : gathered) (s : PriceSource) :
  raw_prices (gather_step symbol st s)
    = raw_prices st ++ valid_prices_of [fetch s symbol] /\
  valid_count (gather_step symbol st s)
    = valid_count st + length (valid_prices_of [fetch s symbol]) /\
  source_map (gather_step symbol st s) = record_entry symbol (source_map st) s.
Proof.
  unfold gather_step, record_entry, entry. cbn [valid_prices_of].
  destruct (fetch s symbol) as [p |]; cbn [is_valid_price].
  - destruct (0 <? p)%float; cbn [raw_prices valid_count source_map length];
      rewrite ?app_nil_r; repeat split; lia.
  - cbn [raw_prices valid_count source_map length]. rewrite app_nil_r.
    repeat split; lia.
Qed.

Lemma valid_prices_of_app (l1 l2 : list (option float)) :
  valid_prices_of (l1 ++ l2) = valid_prices_of l1 ++ valid_prices_of l2.
Proof.
  induction l1 as [| [p |] l1 IH]; cbn [app valid_prices_of]; auto.
  destruct (0 <? p)%float; cbn [app]; congruence.
Qed.

Lemma fold_gather (srcs : list PriceSource) (st : gathered) :
  let g := fold_left (gather_step symbol) srcs st in
  let prices := valid_prices_of (map (fun s => fetch s symbol) srcs) in
  raw_prices g = raw_prices st ++ prices /\
  valid_count g = valid_count st + length prices /\
  source_map g = fold_left (record_entry symbol) srcs (source_map st).
Proof.
  cbv zeta. revert st. induction srcs as [| s srcs IH]; intros st.
  - cbn. rewrite app_nil_r. repeat split; lia.
  - cbn [fold_left map].
    destruct (IH (gather_step symbol st s)) as (H1 & H2 & H3).
    destruct (gather_step_fields st s) as (G1 & G2 & G3).
    rewrite H1, H2, H3, G1, G2, G3.
    change (fetch s symbol :: map (fun s0 => fetch s0 symbol) srcs)
      with ([fetch s symbol] ++ map (fun s0 => fetch s0 symbol) srcs).
    rewrite valid_prices_of_app, length_app, <- app_assoc. repeat split; lia.
Qed.

Lemma fold_record_fresh (srcs : list PriceSource) (m : dict source_value) :
  NoDup (keys m ++ map name srcs) ->
  fold_left (record_entry symbol) srcs m = m ++ map (fun s => (name s, entry symbol s)) srcs.
Proof.
  revert m. induction srcs as [| s srcs IH]; intros m Hnd; cbn [fold_left map].
  - rewrite app_nil_r. reflexivity.
  - unfold record_entry at 2. rewrite keys_set_fresh.
    + rewrite IH.
      * rewrite <- app_assoc. reflexivity.
      * unfold keys. rewrite map_app. cbn [map fst]. rewrite <- app_assoc. exact Hnd.
    + intros Hin. cbn [map] in Hnd. apply NoDup_remove_2 in Hnd.
      apply Hnd. apply in_or_app. left. exact Hin.
Qed.

Lemma fold_record_get (srcs : list PriceSource) (m : dict source_value) (v : source_value) :
  (forall s, In s srcs -> entry symbol s = v) ->
  forall k, dict_get k (fold_left (record_entry symbol) srcs m)
            = if existsb (fun s => String.eqb (name s) k) srcs then Some v
              else dict_get k m.
Proof.
  revert m. induction srcs as [| s srcs IH]; intros m Hall k; cbn [fold_left existsb].
  - reflexivity.
  - rewrite IH by (intros; apply Hall; right; assumption).
    unfold record_entry. rewrite dict_get_set, (Hall s) by (left; reflexivity).
    destruct (existsb _ srcs); [rewrite orb_true_r | rewrite orb_false_r]; reflexivity.
Qed.

End Gather.

Section Engine.

Variables (self : StockPriceEngine) (w : world) (symbol : string).

Lemma gather_fields :
  raw_prices (gather self symbol) = valid_prices self symbol /\
  valid_count (gather self symbol) = length (valid_prices self symbol) /\
  source_map (gather self symbol) = fold_left (record_entry symbol) (sources self) [].
Proof.
  unfold gather, valid_prices, readings.
  destruct (fold_gather symbol (sources self)
              {| raw_prices := []; source_map := []; valid_count := 0 |})
    as (H1 & H2 & H3).
  cbn [raw_prices valid_count source_map] in H1, H2, H3.
  rewrite H1, H2, H3. repeat split.
Qed.

Lemma error_map (code message : string) (m : dict source_value) :
  _error w code message m =
  [ ("error", VStr code); ("message", VStr message);
    ("scraped_at", VStr (scraped_at w)); ("source_prices", VMap m) ]%string.
Proof. unfold _error. destruct m; reflexivity. Qed.

(** [fetch_price], by the three ways it can end. *)
Lemma fetch_price_cases :
  let prices := valid_prices self symbol in
  let m := source_map (gather self symbol) in
  fetch_price self w symbol =
    if Nat.ltb (length prices) MIN_VALID_SOURCES then
      Ok (insufficient_data w (length prices) m)
    else
      match consensus_price prices with
      | Raise e => Raise e
      | Ok None => Ok (low_confidence w m)
      | Ok (Some price) =>
          match confidence_score (length prices) (total_sources self) true with
          | Raise e => Raise e
          | Ok c => Ok (success w symbol price c m)
          end
      end.
Proof.
  cbv zeta. unfold fetch_price.
  destruct gather_fields as (H1 & H2 & _). rewrite H1, H2.
  destruct (Nat.ltb _ _); [rewrite error_map; reflexivity|].
  destruct (consensus_price _) as [[price |] | e]; cbn [bind is_not_None].
  - destruct (confidence_score _ _ _); reflexivity.
  - rewrite error_map. reflexivity.
  - reflexivity.
Qed.

Lemma valid_prices_of_valid (l : list (option float)) : Forall valid (valid_prices_of l).
Proof.
  induction l as [| [p |] l IH]; cbn [valid_prices_of]; auto.
  destruct (0 <? p)%float eqn:Hp; auto.
Qed.

Lemma valid_prices_valid : Forall valid (valid_prices self symbol).
Proof. apply valid_prices_of_valid. Qed.

End Engine.

(** ** Claims on [fetch_price] *)

Section FetchClaims.

Local Open Scope string_scope.

(** C3. On a success, the confidence is
    [round(min(1.0, validCount / totalSources + 0.1), 2)], with
    [validCount] the number of valid readings and [totalSources] the
    engine's count of adapters. *)
Theorem C3_confidence_formula (self : StockPriceEngine) (w : world)
    (symbol : string) (r : dict value) :
  fetch_price self w symbol = Ok r ->
  is_failure r = false ->
  exists base,
    PyFloat.int_truediv (length (valid_prices self symbol)) (total_sources self)
      = Ok base /\
    dict_get "confidence" r
      = Some (VFloat (PyFloat.round2
                        (PyFloat.min 1 (base + 0x1.999999999999ap-4)))).
Proof.
  rewrite fetch_price_cases. cbv zeta.
  destruct (Nat.ltb _ _); [intros [= <-]; discriminate|].
  destruct (consensus_price _) as [[price |] | e]; try discriminate.
  - unfold confidence_score. cbn [negb].
    destruct (PyFloat.int_truediv _ _) as [base | e]; cbn [bind]; [|discriminate].
    intros [= <-] _. exists base. split; reflexivity.
  - intros [= <-]; discriminate.
Qed.

(** One provider out of two answers: the confidence is
    [round(min(1.0, 1/2 + 0.1), 2)]. *)
Lemma C3_confidence_formula_witness :
  exists base,
    PyFloat.int_truediv
      (length (valid_prices (StockPriceEngine_init (fun _ => None) (fun _ => Some 3%float))
                 "AAPL"))
      (total_sources (StockPriceEngine_init (fun _ => None) (fun _ => Some 3%float)))
      = Ok base /\
    dict_get "confidence"
      (success {| now := {| toordinal := 739000; hour := 15; minute := 0;
                            second := 0; microsecond := 0 |};
                  scraped_at := "2024-04-24T15:00:00+00:00" |}
         "AAPL" 3 0x1.3333333333333p-1
         [("YahooFinance", FAILED); ("Stooq", Price 3)])
      = Some (VFloat (PyFloat.round2
                        (PyFloat.min 1 (base + 0x1.999999999999ap-4)))).
Proof.
  apply (@C3_confidence_formula
           (StockPriceEngine_init (fun _ => None) (fun _ => Some 3%float))
           {| now := {| toordinal := 739000; hour := 15; minute := 0;
                        second := 0; microsecond := 0 |};
              scraped_at := "2024-04-24T15:00:00+00:00" |}
           "AAPL").
  - vm_compute. reflexivity.
  - reflexivity.
Defined.

(** C4. With fewer valid readings than [MIN_VALID_SOURCES], the result is
    the [INSUFFICIENT_DATA] failure: its message gives the required and the
    found counts, and its map has [FAILED] under the name of every adapter
    and nothing else. *)
Theorem C4_insufficient_data (self : StockPriceEngine) (w : world) (symbol : string) :
  length (valid_prices self symbol) < MIN_VALID_SOURCES ->
  exists m,
    fetch_price self w symbol =
      Ok [ ("error", VStr "INSUFFICIENT_DATA");
           ("message",
             VStr ("Requires " ++ str_of_nat MIN_VALID_SOURCES
                     ++ " reliable sources, but only found "
                     ++ str_of_nat (length (valid_prices self symbol))));
           ("scraped_at", VStr (scraped_at w));
           ("source_prices", VMap m) ] /\
    (forall s, In s (sources self) -> dict_get (name s) m = Some FAILED) /\
    (forall k v, dict_get k m = Some v ->
                 v = FAILED /\ In k (map name (sources self))).
Proof.
  intros Hlt. exists (source_map (gather self symbol)).
  rewrite fetch_price_cases. cbv zeta.
  destruct (Nat.ltb_spec (length (valid_prices self symbol)) MIN_VALID_SOURCES)
    as [_ | Hge]; [|lia].
  split; [reflexivity|].
  assert (Hall : forall s, In s (sources self) -> entry symbol s = FAILED).
  { unfold MIN_VALID_SOURCES in Hlt.
    assert (Hnil : valid_prices self symbol = [])
      by (destruct (valid_prices self symbol); [reflexivity | cbn in Hlt; lia]).
    unfold valid_prices, readings in Hnil. clear Hlt.
    induction (sources self) as [| s0 srcs IH]; intros s Hin; [destruct Hin|].
    destruct Hin as [-> | Hin].
    - unfold entry. cbn [map valid_prices_of] in Hnil.
      destruct (fetch s symbol) as [p |]; [|reflexivity].
      destruct (0 <? p)%float; [discriminate | reflexivity].
    - apply IH; [|exact Hin]. cbn [map valid_prices_of] in Hnil.
      destruct (fetch s0 symbol) as [p |]; [|exact Hnil].
      destruct (0 <? p)%float; [discriminate | exact Hnil]. }
  destruct (gather_fields self symbol) as (_ & _ & ->).
  split.
  - intros s Hin. rewrite (@fold_record_get symbol (sources self) [] FAILED Hall).
    replace (existsb _ _) with true; [reflexivity|].
    symmetry. apply existsb_exists. exists s. split; [exact Hin | apply String.eqb_refl].
  - intros k v. rewrite (@fold_record_get symbol (sources self) [] FAILED Hall).
    destruct (existsb _ _) eqn:E; [|discriminate].
    intros [= <-]. split; [reflexivity|].
    apply existsb_exists in E. destruct E as (s & Hin & Heq).
    apply String.eqb_eq in Heq. subst k. apply in_map, Hin.
Qed.

(** Both providers unavailable. *)
Lemma C4_insufficient_data_witness :
  exists m,
    fetch_price (StockPriceEngine_init (fun _ => None) (fun _ => None))
      {| now := {| toordinal := 739000; hour := 15; minute := 0;
                   second := 0; microsecond := 0 |};
         scraped_at := "2024-04-24T15:00:00+00:00" |} "AAPL" =
      Ok [ ("error", VStr "INSUFFICIENT_DATA");
           ("message",
             VStr ("Requires " ++ str_of_nat MIN_VALID_SOURCES
                     ++ " reliable sources, but only found "
                     ++ str_of_nat
                          (length (valid_prices
                                     (StockPriceEngine_init (fun _ => None) (fun _ => None))
                                     "AAPL"))));
           ("scraped_at", VStr "2024-04-24T15:00:00+00:00");
           ("source_prices", VMap m) ] /\
    (forall s, In s (sources (StockPriceEngine_init (fun _ => None) (fun _ => None))) ->
               dict_get (name s) m = Some FAILED) /\
    (forall k v, dict_get k m = Some v ->
                 v = FAILED /\
                 In k (map name (sources (StockPriceEngine_init (fun _ => None)
                                            (fun _ => None))))).
Proof.
  apply (@C4_insufficient_data
           (StockPriceEngine_init (fun _ => None) (fun _ => None))
           {| now := {| toordinal := 739000; hour := 15; minute := 0;
                        second := 0; microsecond := 0 |};
              scraped_at := "2024-04-24T15:00:00+00:00" |}
           "AAPL").
  vm_compute. lia.
Defined.

(** C5. When the count check passes and the consensus over the valid prices
    is [None] (the filter kept fewer than [MIN_VALID_SOURCES] of them), the
    result is the [LOW_CONFIDENCE] failure, whose message cites
    [MAX_PRICE_DEVIATION]; readings of 150.00 and 200.00 end this way. *)
Theorem C5_low_confidence :
  (forall (self : StockPriceEngine) (w : world) (symbol : string),
     MIN_VALID_SOURCES <= length (valid_prices self symbol) ->
     consensus_price (valid_prices self symbol) = Ok None ->
     (exists m, statistics.median (valid_prices self symbol) = Ok m /\
                length (retained m (valid_prices self symbol)) < MIN_VALID_SOURCES) /\
     fetch_price self w symbol =
       Ok [ ("error", VStr "LOW_CONFIDENCE");
            ("message",
              VStr ("Prices deviated by more than " ++ MAX_PRICE_DEVIATION_str
                      ++ "%. Check raw prices."));
            ("scraped_at", VStr (scraped_at w));
            ("source_prices", VMap (source_map (gather self symbol))) ]) /\
  (forall (yahoo stooq : string -> option float) (w : world) (symbol : string),
     yahoo symbol = Some 150%float -> stooq symbol = Some 200%float ->
     fetch_price (StockPriceEngine_init yahoo stooq) w symbol =
       Ok [ ("error", VStr "LOW_CONFIDENCE");
            ("message", VStr "Prices deviated by more than 0.5%. Check raw prices.");
            ("scraped_at", VStr (scraped_at w));
            ("source_prices",
              VMap [("YahooFinance", Price 150); ("Stooq", Price 200)]) ]).
Proof.
  split.
  - intros self w symbol Hlen Hnone. split.
    + apply consensus_price_none; [apply valid_prices_valid | exact Hlen | exact Hnone].
    + rewrite fetch_price_cases. cbv zeta. rewrite Hnone.
      destruct (Nat.ltb_spec (length (valid_prices self symbol)) MIN_VALID_SOURCES);
        [lia | reflexivity].
  - intros yahoo stooq w symbol Hy Hs.
    unfold fetch_price, gather. cbn [sources StockPriceEngine_init fold_left].
    unfold gather_step. cbn [fetch name YahooSource StooqSource].
    rewrite Hy, Hs. vm_compute. reflexivity.
Qed.

(** Two providers at 150.00 and 200.00. *)
Lemma C5_low_confidence_witness :
  (exists m,
     statistics.median
       (valid_prices (StockPriceEngine_init (fun _ => Some 150%float)
                        (fun _ => Some 200%float)) "AAPL") = Ok m /\
     length (retained m
               (valid_prices (StockPriceEngine_init (fun _ => Some 150%float)
                                (fun _ => Some 200%float)) "AAPL"))
       < MIN_VALID_SOURCES) /\
  fetch_price (StockPriceEngine_init (fun _ => Some 150%float) (fun _ => Some 200%float))
    {| now := {| toordinal := 739000; hour := 15; minute := 0;
                 second := 0; microsecond := 0 |};
       scraped_at := "2024-04-24T15:00:00+00:00" |} "AAPL" =
    Ok [ ("error", VStr "LOW_CONFIDENCE");
         ("message",
           VStr ("Prices deviated by more than " ++ MAX_PRICE_DEVIATION_str
                   ++ "%. Check raw prices."));
         ("scraped_at", VStr "2024-04-24T15:00:00+00:00");
         ("source_prices",
           VMap (source_map
                   (gather (StockPriceEngine_init (fun _ => Some 150%float)
                              (fun _ => Some 200%float)) "AAPL"))) ].
Proof.
  apply (proj1 C5_low_confidence
           (StockPriceEngine_init (fun _ => Some 150%float) (fun _ => Some 200%float))
           {| now := {| toordinal := 739000; hour := 15; minute := 0;
                        second := 0; microsecond := 0 |};
              scraped_at := "2024-04-24T15:00:00+00:00" |}
           "AAPL").
  - vm_compute. lia.
  - vm_compute. reflexivity.
Defined.

Lemma valid_prices_of_length (l : list (option float)) :
  length (valid_prices_of l) <= length l.
Proof.
  induction l as [| [p |] l IH]; cbn [valid_prices_of length]; try lia.
  destruct (0 <? p)%float; cbn [length]; lia.
Qed.

(** C6. Every call of [fetch_price] on an engine whose [total_sources] is
    the number of its adapters returns a result, and the confidence a
    caller reads from it ([result.get("confidence", 0)]) is 0.0 exactly on
    a failure: a failure carries no confidence, a success one that is
    strictly positive. *)
Theorem C6_confidence_zero_iff_failure (self : StockPriceEngine) (w : world)
    (symbol : string) :
  wf_engine self ->
  exists r,
    fetch_price self w symbol = Ok r /\
    ((confidence_or_zero r =? 0)%float = true <-> is_failure r = true) /\
    (is_failure r = true -> dict_get "confidence" r = None) /\
    (is_failure r = false ->
     exists c, dict_get "confidence" r = Some (VFloat c) /\ (0 <? c)%float = true).
Proof.
  intros Hwf. rewrite fetch_price_cases. cbv zeta.
  assert (Hle : length (valid_prices self symbol) <= total_sources self).
  { rewrite Hwf. unfold valid_prices.
    rewrite <- (length_map (fun s => fetch s symbol) (sources self)).
    apply valid_prices_of_length. }
  pose proof (valid_prices_valid self symbol) as Hv.
  destruct (Nat.ltb_spec (length (valid_prices self symbol)) MIN_VALID_SOURCES)
    as [Hlt | Hge].
  { eexists. split; [reflexivity|]. repeat split; try reflexivity; discriminate. }
  unfold MIN_VALID_SOURCES in Hge.
  assert (Hne : valid_prices self symbol <> []) by (apply length_pos_not_nil; lia).
  destruct (consensus_price_total Hne Hv) as ([price |] & ->).
  - destruct (@confidence_score_pos (length (valid_prices self symbol)) (total_sources self))
      as (c & -> & Hpos); [lia|].
    eexists. split; [reflexivity|].
    change (confidence_or_zero (success w symbol price c (source_map (gather self symbol))))
      with c.
    change (is_failure (success w symbol price c (source_map (gather self symbol))))
      with false.
    rewrite (pos_not_zero Hpos). repeat split; try discriminate.
    intros _. exists c. split; [reflexivity | exact Hpos].
  - eexists. split; [reflexivity|]. repeat split; try reflexivity; discriminate.
Qed.

(** The engine of the program, its two providers at 150.00 and 150.40. *)
Lemma C6_confidence_zero_iff_failure_witness :
  exists r,
    fetch_price (StockPriceEngine_init (fun _ => Some 150%float)
                   (fun _ => Some 0x1.2cccccccccccdp+7%float))
      {| now := {| toordinal := 739000; hour := 15; minute := 0;
                   second := 0; microsecond := 0 |};
         scraped_at := "2024-04-24T15:00:00+00:00" |} "AAPL" = Ok r /\
    ((confidence_or_zero r =? 0)%float = true <-> is_failure r = true) /\
    (is_failure r = true -> dict_get "confidence" r = None) /\
    (is_failure r = false ->
     exists c, dict_get "confidence" r = Some (VFloat c) /\ (0 <? c)%float = true).
Proof.
  apply (@C6_confidence_zero_iff_failure
           (StockPriceEngine_init (fun _ => Some 150%float)
              (fun _ => Some 0x1.2cccccccccccdp+7%float))).
  reflexivity.
Defined.

(** C7. When the adapters have distinct names, the per-source map of every
    result, success or failure, has one entry per adapter under its name,
    in registration order. *)
Theorem C7_source_map_registration_order (self : StockPriceEngine) (w : world)
    (symbol : string) (r : dict value) :
  NoDup (map name (sources self)) ->
  fetch_price self w symbol = Ok r ->
  dict_get "source_prices" r
    = Some (VMap (map (fun s => (name s, entry symbol s)) (sources self))) /\
  keys (source_prices r) = map name (sources self).
Proof.
  intros Hnd. rewrite fetch_price_cases. cbv zeta.
  destruct (gather_fields self symbol) as (_ & _ & ->).
  rewrite fold_record_fresh by exact Hnd. cbn [app].
  assert (Hk : keys (map (fun s => (name s, entry symbol s)) (sources self))
               = map name (sources self)).
  { unfold keys. rewrite map_map. reflexivity. }
  destruct (Nat.ltb _ _); [intros [= <-]; split; [reflexivity | exact Hk]|].
  destruct (consensus_price _) as [[price |] | e]; try discriminate.
  - destruct (confidence_score _ _ _) as [c | e]; [|discriminate].
    intros [= <-]; split; [reflexivity | exact Hk].
  - intros [= <-]; split; [reflexivity | exact Hk].
Qed.

(** The engine of the program, one provider failing. *)
Lemma C7_source_map_registration_order_witness :
  dict_get "source_prices"
    (success {| now := {| toordinal := 739000; hour := 15; minute := 0;
                          second := 0; microsecond := 0 |};
                scraped_at := "2024-04-24T15:00:00+00:00" |}
       "AAPL" 3 0x1.3333333333333p-1
       [("YahooFinance", FAILED); ("Stooq", Price 3)])
    = Some (VMap (map (fun s => (name s, entry "AAPL" s))
                    (sources (StockPriceEngine_init (fun _ => None)
                                (fun _ => Some 3%float))))) /\
  keys (source_prices
          (success {| now := {| toordinal := 739000; hour := 15; minute := 0;
                                second := 0; microsecond := 0 |};
                      scraped_at := "2024-04-24T15:00:00+00:00" |}
             "AAPL" 3 0x1.3333333333333p-1
             [("YahooFinance", FAILED); ("Stooq", Price 3)]))
    = map name (sources (StockPriceEngine_init (fun _ => None) (fun _ => Some 3%float))).
Proof.
  apply (@C7_source_map_registration_order
           (StockPriceEngine_init (fun _ => None) (fun _ => Some 3%float))
           {| now := {| toordinal := 739000; hour := 15; minute := 0;
                        second := 0; microsecond := 0 |};
              scraped_at := "2024-04-24T15:00:00+00:00" |}
           "AAPL").
  - repeat constructor; cbn; intuition discriminate.
  - vm_compute. reflexivity.
Defined.

(** C9. [fetch_price] calls [consensus_price] on valid prices only, and
    the median of a non-empty list of valid prices is strictly positive:
    the division of the filter is defined for every price and
    [consensus_price] raises nothing. *)
Theorem C9_median_positive :
  (forall (self : StockPriceEngine) (symbol : string),
     Forall valid (raw_prices (gather self symbol))) /\
  (forall prices : list float,
     prices <> [] -> Forall valid prices ->
     exists m,
       statistics.median prices = Ok m /\
       (0 <? m)%float = true /\
       (forall x, PyFloat.truediv x m = Ok (x / m)%float) /\
       (forall p, within_deviation m p <> Raise ZeroDivisionError) /\
       exists r, consensus_price prices = Ok r).
Proof.
  split.
  - intros self symbol. destruct (gather_fields self symbol) as (-> & _).
    apply valid_prices_valid.
  - intros prices Hne Hv. destruct (median_pos Hne Hv) as (m & Hmed & Hm).
    exists m. split; [exact Hmed|]. split; [exact Hm|]. split; [|split].
    + intros x. unfold PyFloat.truediv. rewrite (pos_not_zero Hm). reflexivity.
    + intros p. rewrite (within_deviation_pos p Hm). discriminate.
    + apply consensus_price_total; assumption.
Qed.

(** The smallest subnormal twice: the median is their halved sum, still
    positive. *)
Lemma C9_median_positive_witness :
  exists m,
    statistics.median [0x1p-1074; 0x1p-1074]%float = Ok m /\
    (0 <? m)%float = true /\
    (forall x, PyFloat.truediv x m = Ok (x / m)%float) /\
    (forall p, within_deviation m p <> Raise ZeroDivisionError) /\
    exists r, consensus_price [0x1p-1074; 0x1p-1074]%float = Ok r.
Proof.
  apply (proj2 C9_median_positive [0x1p-1074; 0x1p-1074]%float).
  - discriminate.
  - repeat constructor.
Defined.

(** C10, as stated, fails on an infinite price: [inf] passes the validity
    filter, the median of [[inf]] is [inf], the deviation [inf - inf] is
    NaN and no comparison with NaN holds, so nothing is kept. *)
Lemma C10_counterexample :
  Forall valid [infinity] /\
  Nat.odd (length [infinity]) = true /\
  MIN_VALID_SOURCES <= length [infinity] /\
  consensus_price [infinity] = Ok None /\
  fetch_price (StockPriceEngine_init (fun _ => None) (fun _ => Some infinity))
    {| now := {| toordinal := 739000; hour := 15; minute := 0;
                 second := 0; microsecond := 0 |};
       scraped_at := "2024-04-24T15:00:00+00:00" |} "AAPL"
  = Ok (low_confidence
          {| now := {| toordinal := 739000; hour := 15; minute := 0;
                       second := 0; microsecond := 0 |};
             scraped_at := "2024-04-24T15:00:00+00:00" |}
          [("YahooFinance", FAILED); ("Stooq", Price infinity)]).
Proof.
  split; [repeat constructor|]. split; [reflexivity|].
  split; [unfold MIN_VALID_SOURCES; cbn; lia|].
  split; vm_compute; reflexivity.
Qed.

(** C10, amended. For an odd number of valid finite prices,
    [consensus_price] returns a price, and a call of [fetch_price] whose
    valid readings they are does not end in a failure. *)
Theorem C10_odd_finite_consensus (prices : list float) :
  Forall valid prices ->
  Forall (fun p => PyFloat.is_finite p = true) prices ->
  Nat.odd (length prices) = true ->
  (exists price, consensus_price prices = Ok (Some price)) /\
  (forall (self : StockPriceEngine) (w : world) (symbol : string) (r : dict value),
     valid_prices self symbol = prices ->
     fetch_price self w symbol = Ok r ->
     is_failure r = false).
Proof.
  intros Hv Hf Hodd.
  destruct (consensus_price_odd Hv Hf Hodd) as (price & Hp).
  split; [exists price; exact Hp|].
  intros self w symbol r Hprices. rewrite fetch_price_cases. cbv zeta.
  rewrite Hprices, Hp.
  assert (Hlen : 1 <= length prices) by (destruct prices; [discriminate | cbn; lia]).
  destruct (Nat.ltb_spec (length prices) MIN_VALID_SOURCES) as [Hl | _];
    [unfold MIN_VALID_SOURCES in Hl; lia|].
  destruct (confidence_score _ _ _) as [c | e]; [|discriminate].
  intros [= <-]. reflexivity.
Qed.

(** Three finite readings. *)
Lemma C10_odd_finite_consensus_witness :
  (exists price,
     consensus_price [100; 0x1.90ccccccccccdp+6; 5000]%float = Ok (Some price)) /\
  (forall (self : StockPriceEngine) (w : world) (symbol : string) (r : dict value),
     valid_prices self symbol = [100; 0x1.90ccccccccccdp+6; 5000]%float ->
     fetch_price self w symbol = Ok r ->
     is_failure r = false).
Proof.
  apply (@C10_odd_finite_consensus [100; 0x1.90ccccccccccdp+6; 5000]%float).
  - repeat constructor.
  - repeat constructor.
  - reflexivity.
Defined.

End FetchClaims.

(** ** Scenarios *)

Section Scenarios.

Local Open Scope string_scope.

Let wednesday_1500 : world :=
  {| now := {| toordinal := 739000; hour := 15; minute := 0; second := 0;
               microsecond := 0 |};
     scraped_at := "2024-04-24T15:00:00+00:00" |}.

(** 150.00 and 150.40: the consensus is 150.2 and the confidence 1.0. *)
Example fetch_two_close :
  fetch_price (StockPriceEngine_init (fun _ => Some 150%float)
                 (fun _ => Some 0x1.2cccccccccccdp+7%float)) wednesday_1500 "aapl"
  = Ok (success wednesday_1500 "AAPL" 0x1.2c66666666666p+7 1
          [("YahooFinance", Price 150); ("Stooq", Price 0x1.2cccccccccccdp+7)]).
Proof. vm_compute. reflexivity. Qed.

(** One provider down: the price of the other, confidence 0.6. *)
Example fetch_one_of_two :
  fetch_price (StockPriceEngine_init (fun _ => None) (fun _ => Some 3%float))
    wednesday_1500 "AAPL"
  = Ok (success wednesday_1500 "AAPL" 3 0x1.3333333333333p-1
          [("YahooFinance", FAILED); ("Stooq", Price 3)]).
Proof. vm_compute. reflexivity. Qed.

(** Both providers down, or answering with prices that are not positive. *)
Example fetch_none :
  fetch_price (StockPriceEngine_init (fun _ => None) (fun _ => Some (-3)%float))
    wednesday_1500 "AAPL"
  = Ok (insufficient_data wednesday_1500 0
          [("YahooFinance", FAILED); ("Stooq", FAILED)]).
Proof. vm_compute. reflexivity. Qed.

(** The session opens at 14:30 UTC and closes at 21:00 UTC; Saturday is
    closed. *)
Example market_open_at_0930 :
  market_is_open {| toordinal := 739000; hour := 14; minute := 30; second := 0;
                    microsecond := 0 |} = true.
Proof. reflexivity. Qed.

Example market_closed_at_0929 :
  market_is_open {| toordinal := 739000; hour := 14; minute := 29; second := 59;
                    microsecond := 999999 |} = false.
Proof. reflexivity. Qed.

Example market_closed_at_1600 :
  market_is_open {| toordinal := 739000; hour := 21; minute := 0; second := 0;
                    microsecond := 0 |} = false.
Proof. reflexivity. Qed.

Example market_closed_on_saturday :
  market_is_open {| toordinal := 739003; hour := 15; minute := 0; second := 0;
                    microsecond := 0 |} = false.
Proof. reflexivity. Qed.

(** Early on Monday in UTC is still Sunday at the exchange. *)
Example market_closed_sunday_evening :
  weekday (add_hours {| toordinal := 739005; hour := 2; minute := 0; second := 0;
                        microsecond := 0 |} (-5)) = 6%Z.
Proof. reflexivity. Qed.

End Scenarios.

(** * Further properties of the engine *)

Section EngineProperties.

Local Open Scope string_scope.

Lemma entry_failed (symbol : string) (s : PriceSource) :
  negb (is_failed (entry symbol s)) = is_valid_price (fetch s symbol).
Proof.
  unfold entry, is_valid_price. destruct (fetch s symbol) as [p |]; [|reflexivity].
  destruct (0 <? p)%float; reflexivity.
Qed.

Lemma source_map_distinct (self : StockPriceEngine) (symbol : string) :
  NoDup (map name (sources self)) ->
  source_map (gather self symbol)
  = map (fun s => (name s, entry symbol s)) (sources self).
Proof.
  intros Hnd. destruct (gather_fields self symbol) as (_ & _ & ->).
  rewrite fold_record_fresh by exact Hnd. reflexivity.
Qed.

Lemma used_names (symbol : string) (srcs : list PriceSource) :
  map fst (filter (fun kv => negb (is_failed (snd kv)))
             (map (fun s => (name s, entry symbol s)) srcs))
  = map name (filter (fun s => is_valid_price (fetch s symbol)) srcs).
Proof.
  induction srcs as [| s srcs IH]; [reflexivity|].
  cbn [map filter snd]. rewrite entry_failed.
  destruct (is_valid_price (fetch s symbol)); cbn [map fst]; rewrite IH; reflexivity.
Qed.

Lemma success_sources_used (w : world) (symbol : string) (price c : float)
    (m : dict source_value) :
  dict_get "sources_used" (success w symbol price c m)
  = Some (VList (map fst (filter (fun kv => negb (is_failed (snd kv))) m))).
Proof. reflexivity. Qed.

(** X1. On a success, [sources_used] lists the adapters whose reading was
    valid, and only them, in registration order (adapters of distinct
    names). *)
Theorem X1_sources_used (self : StockPriceEngine) (w : world) (symbol : string)
    (r : dict value) :
  NoDup (map name (sources self)) ->
  fetch_price self w symbol = Ok r ->
  is_failure r = false ->
  dict_get "sources_used" r
  = Some (VList (map name
                   (filter (fun s => is_valid_price (fetch s symbol)) (sources self)))).
Proof.
  intros Hnd. rewrite fetch_price_cases. cbv zeta.
  rewrite (source_map_distinct self symbol Hnd).
  destruct (Nat.ltb _ _); [intros [= <-]; discriminate|].
  destruct (consensus_price _) as [[price |] | e]; try discriminate;
    [|intros [= <-]; discriminate].
  destruct (confidence_score _ _ _) as [c | e]; [|discriminate].
  intros [= <-] _. rewrite success_sources_used, used_names. reflexivity.
Qed.

Lemma X1_sources_used_witness :
  dict_get "sources_used"
    (success {| now := {| toordinal := 739000; hour := 15; minute := 0;
                          second := 0; microsecond := 0 |};
                scraped_at := "2024-04-24T15:00:00+00:00" |}
       "AAPL" 3 0x1.3333333333333p-1
       [("YahooFinance", FAILED); ("Stooq", Price 3)])
  = Some (VList (map name
                   (filter (fun s => is_valid_price (fetch s "AAPL"))
                      (sources (StockPriceEngine_init (fun _ => None)
                                  (fun _ => Some 3%float)))))).
Proof.
  apply (@X1_sources_used
           (StockPriceEngine_init (fun _ => None) (fun _ => Some 3%float))
           {| now := {| toordinal := 739000; hour := 15; minute := 0;
                        second := 0; microsecond := 0 |};
              scraped_at := "2024-04-24T15:00:00+00:00" |}
           "AAPL").
  - repeat constructor; cbn; intuition discriminate.
  - vm_compute. reflexivity.
  - reflexivity.
Defined.

(** X2. The price of a success is the rounded mean of the valid prices the
    filter kept around their median, and there are at least
    [MIN_VALID_SOURCES] of those. *)
Theorem X2_price_of_success (self : StockPriceEngine) (w : world) (symbol : string)
    (r : dict value) :
  fetch_price self w symbol = Ok r ->
  is_failure r = false ->
  exists m mu,
    statistics.median (valid_prices self symbol) = Ok m /\
    MIN_VALID_SOURCES <= length (retained m (valid_prices self symbol)) /\
    incl (retained m (valid_prices self symbol)) (valid_prices self symbol) /\
    statistics.mean (retained m (valid_prices self symbol)) = Ok mu /\
    dict_get "price" r = Some (VFloat (PyFloat.round2 mu)).
Proof.
  rewrite fetch_price_cases. cbv zeta.
  destruct (Nat.ltb_spec (length (valid_prices self symbol)) MIN_VALID_SOURCES)
    as [_ | Hge]; [intros [= <-]; discriminate|].
  assert (Hne : valid_prices self symbol <> []).
  { apply length_pos_not_nil. unfold MIN_VALID_SOURCES in Hge. exact Hge. }
  destruct (median_pos Hne (valid_prices_valid self symbol)) as (m & Hmed & Hm).
  rewrite (consensus_price_pos _ Hmed Hm).
  destruct (Nat.ltb_spec (length (valid_prices self symbol)) MIN_VALID_SOURCES)
    as [Hlt | _]; [lia|].
  destruct (Nat.ltb_spec (length (retained m (valid_prices self symbol))) MIN_VALID_SOURCES)
    as [_ | Hkept]; [intros [= <-]; discriminate|].
  destruct (statistics.mean (retained m (valid_prices self symbol))) as [mu | e] eqn:Hmu;
    cbn [bind]; [|discriminate].
  destruct (confidence_score _ _ _) as [c | e]; [|discriminate].
  intros [= <-] _. exists m, mu.
  split; [exact Hmed|]. split; [exact Hkept|]. split; [apply incl_filter|].
  split; [exact Hmu | reflexivity].
Qed.

Lemma X2_price_of_success_witness :
  exists m mu,
    statistics.median
      (valid_prices (StockPriceEngine_init (fun _ => None) (fun _ => Some 3%float))
         "AAPL") = Ok m /\
    MIN_VALID_SOURCES
      <= length (retained m
                   (valid_prices (StockPriceEngine_init (fun _ => None)
                                    (fun _ => Some 3%float)) "AAPL")) /\
    incl (retained m
            (valid_prices (StockPriceEngine_init (fun _ => None)
                             (fun _ => Some 3%float)) "AAPL"))
      (valid_prices (StockPriceEngine_init (fun _ => None) (fun _ => Some 3%float))
         "AAPL") /\
    statistics.mean
      (retained m
         (valid_prices (StockPriceEngine_init (fun _ => None) (fun _ => Some 3%float))
            "AAPL")) = Ok mu /\
    dict_get "price"
      (success {| now := {| toordinal := 739000; hour := 15; minute := 0;
                            second := 0; microsecond := 0 |};
                  scraped_at := "2024-04-24T15:00:00+00:00" |}
         "AAPL" 3 0x1.3333333333333p-1
         [("YahooFinance", FAILED); ("Stooq", Price 3)])
    = Some (VFloat (PyFloat.round2 mu)).
Proof.
  apply (@X2_price_of_success
           (StockPriceEngine_init (fun _ => None) (fun _ => Some 3%float))
           {| now := {| toordinal := 739000; hour := 15; minute := 0;
                        second := 0; microsecond := 0 |};
              scraped_at := "2024-04-24T15:00:00+00:00" |}
           "AAPL").
  - vm_compute. reflexivity.
  - reflexivity.
Defined.

(** X3. The clock decides nothing but the two entries that report it: two
    calls that see the same readings at different times raise the same
    exception or return results that agree on every key other than
    [market_state] and [scraped_at]. *)
Theorem X3_clock_does_not_gate (self : StockPriceEngine) (w1 w2 : world)
    (symbol : string) :
  match fetch_price self w1 symbol, fetch_price self w2 symbol with
  | Ok r1, Ok r2 =>
      keys r1 = keys r2 /\
      forall k, k <> "market_state" -> k <> "scraped_at" ->
                dict_get k r1 = dict_get k r2
  | Raise e1, Raise e2 => e1 = e2
  | _, _ => False
  end.
Proof.
  rewrite !fetch_price_cases. cbv zeta.
  destruct (Nat.ltb _ _).
  - split; [reflexivity|]. intros k H1 H2. cbn [insufficient_data dict_get].
    apply String.eqb_neq in H2. rewrite (String.eqb_sym "scraped_at" k), H2.
    reflexivity.
  - destruct (consensus_price _) as [[price |] | e]; [| |reflexivity].
    + destruct (confidence_score _ _ _) as [c | e]; [|reflexivity].
      split; [reflexivity|]. intros k H1 H2. cbn [success dict_get].
      apply String.eqb_neq in H1, H2.
      rewrite (String.eqb_sym "scraped_at" k), H2.
      rewrite (String.eqb_sym "market_state" k), H1. reflexivity.
    + split; [reflexivity|]. intros k H1 H2. cbn [low_confidence dict_get].
      apply String.eqb_neq in H2. rewrite (String.eqb_sym "scraped_at" k), H2.
      reflexivity.
Qed.

(** X4. Which way a call ends is decided by the valid prices alone:
    [INSUFFICIENT_DATA] exactly when they are fewer than
    [MIN_VALID_SOURCES], [LOW_CONFIDENCE] exactly when they are enough and
    have no consensus, a success exactly when they have one. *)
Theorem X4_outcome (self : StockPriceEngine) (w : world) (symbol : string)
    (r : dict value) :
  fetch_price self w symbol = Ok r ->
  (dict_get "error" r = Some (VStr "INSUFFICIENT_DATA")
   <-> length (valid_prices self symbol) < MIN_VALID_SOURCES) /\
  (dict_get "error" r = Some (VStr "LOW_CONFIDENCE")
   <-> MIN_VALID_SOURCES <= length (valid_prices self symbol) /\
       consensus_price (valid_prices self symbol) = Ok None) /\
  (dict_get "error" r = None
   <-> MIN_VALID_SOURCES <= length (valid_prices self symbol) /\
       exists price, consensus_price (valid_prices self symbol) = Ok (Some price)).
Proof.
  rewrite fetch_price_cases. cbv zeta.
  destruct (Nat.ltb_spec (length (valid_prices self symbol)) MIN_VALID_SOURCES)
    as [Hlt | Hge].
  - intros [= <-]. cbn.
    repeat split; try discriminate; try lia; intros [? ?]; lia.
  - destruct (consensus_price _) as [[price |] | e]; try discriminate.
    + destruct (confidence_score _ _ _) as [c | e]; [|discriminate].
      intros [= <-]. cbn.
      repeat split; try discriminate; try lia; eauto; intros [_ ?]; discriminate.
    + intros [= <-]. cbn.
      repeat split; try discriminate; try lia; intros [_ [? ?]]; discriminate.
Qed.

Lemma X4_outcome_witness :
  (dict_get "error"
     (low_confidence {| now := {| toordinal := 739000; hour := 15; minute := 0;
                                  second := 0; microsecond := 0 |};
                        scraped_at := "2024-04-24T15:00:00+00:00" |}
        [("YahooFinance", Price 150); ("Stooq", Price 200)])
   = Some (VStr "INSUFFICIENT_DATA")
   <-> length (valid_prices (StockPriceEngine_init (fun _ => Some 150%float)
                               (fun _ => Some 200%float)) "AAPL")
       < MIN_VALID_SOURCES) /\
  (dict_get "error"
     (low_confidence {| now := {| toordinal := 739000; hour := 15; minute := 0;
                                  second := 0; microsecond := 0 |};
                        scraped_at := "2024-04-24T15:00:00+00:00" |}
        [("YahooFinance", Price 150); ("Stooq", Price 200)])
   = Some (VStr "LOW_CONFIDENCE")
   <-> MIN_VALID_SOURCES
       <= length (valid_prices (StockPriceEngine_init (fun _ => Some 150%float)
                                  (fun _ => Some 200%float)) "AAPL") /\
       consensus_price (valid_prices (StockPriceEngine_init (fun _ => Some 150%float)
                                        (fun _ => Some 200%float)) "AAPL") = Ok None) /\
  (dict_get "error"
     (low_confidence {| now := {| toordinal := 739000; hour := 15; minute := 0;
                                  second := 0; microsecond := 0 |};
                        scraped_at := "2024-04-24T15:00:00+00:00" |}
        [("YahooFinance", Price 150); ("Stooq", Price 200)])
   = None
   <-> MIN_VALID_SOURCES
       <= length (valid_prices (StockPriceEngine_init (fun _ => Some 150%float)
                                  (fun _ => Some 200%float)) "AAPL") /\
       exists price,
         consensus_price (valid_prices (StockPriceEngine_init (fun _ => Some 150%float)
                                          (fun _ => Some 200%float)) "AAPL")
         = Ok (Some price)).
Proof.
  apply (@X4_outcome
           (StockPriceEngine_init (fun _ => Some 150%float) (fun _ => Some 200%float))
           {| now := {| toordinal := 739000; hour := 15; minute := 0;
                        second := 0; microsecond := 0 |};
              scraped_at := "2024-04-24T15:00:00+00:00" |}
           "AAPL").
  vm_compute. reflexivity.
Defined.

End EngineProperties.
